(** * Arweave bundle upload: batching and the resumable upload generator

    A shallow embedding of
    [js/packages/cli/src/helpers/upload/arweave-bundle.ts]:
    the bundle-range computation [getBundleRange], the per-pair processing
    [processBundleFilePair], the per-bundle step [processBundle] and the
    generator [makeArweaveBundleUploadGenerator].

    Conventions of the embedding.
    - JS numbers that hold byte counts are [Z] (they are exact integers in
      the source as long as they stay below 2^53); array lengths and loop
      counters are [nat].
    - Strings and Buffers are [string], read as sequences of bytes (UTF-8).
    - An [async] computation is a value of [M A]: the trace of the external
      calls it made, in order, and its outcome, fulfilled or rejected.
    - The file system, the MIME table, JSON parsing of asset manifests, the
      signers and the storage network are external collaborators: they are
      the fields of [Env]. Logging is not modelled. *)

From Stdlib Require Import ZArith Lia Bool Ascii String.
From stdpp Require Import list strings.

Local Open Scope string_scope.
Local Open Scope Z_scope.
Local Open Scope list_scope.

(** ** Data model *)

(** A transaction tag, [{ name, value }]. *)
Record Tag := { tag_name : string; tag_value : string }.

(** [arbundles]' DataItem as far as the source uses it: the data, the tags
    and the id, which is assigned by [sign]. The source never reads [id]
    before the item is signed; the embedding holds the empty string there. *)
Record DataItem := { data : string; tags : list Tag; id : string }.

(** [type FilePair = { key; image; manifest }]. *)
Record FilePair := { key : string; image : string; manifest : string }.

(** [type BundleRange = { count; size }]. *)
Record BundleRange := { count : nat; size : Z }.

(** [type Manifest = { image; properties: { files: [{type, uri}] } }], the
    contents of an asset's JSON file "in its minimal form". *)
Record ManifestFile := { file_type : string; file_uri : string }.
Record ManifestProperties := { files : list ManifestFile }.
Record Manifest := {
  m_image : string;
  properties : ManifestProperties;
  m_rest : string  (* the members the type leaves out, as parsed *)
}.

(** [type ArweavePathManifest]: [paths] is a JS object used as a map from a
    file name to [{ id }]; it is built once, by an object literal, and never
    updated, so it is kept as the association list of that literal. *)
Record ArweavePathManifest := {
  pm_manifest : string;
  pm_version : string;
  paths : list (string * string);
  index_path : string
}.

(** [type ProcessedBundleFilePairs]. *)
Record ProcessedBundleFilePairs := {
  acc_cacheKeys : list string;
  acc_dataItems : list DataItem;
  acc_arweavePathManifestLinks : list string;
  acc_updatedManifests : list Manifest
}.

(** [type UploadGeneratorResult = Omit<ProcessedBundleFilePairs, 'dataItems'>]. *)
Record UploadGeneratorResult := {
  cacheKeys : list string;
  arweavePathManifestLinks : list string;
  updatedManifests : list Manifest
}.

(** Modelled from the spec: the enum [StorageType] of [../storage-type], whose
    declaration is not part of the source file. The source names two of its
    members, [ArweaveBundle] (the spec's bundled strategy, paid in AR) and
    [ArweaveSol] (the per-unit strategy, paid in SOL); every other member
    takes the else-branches and is [OtherStorage]. *)
Inductive StorageType := ArweaveBundle | ArweaveSol | OtherStorage.

(** Modelled from the spec: [AssetKey] of [../../types], of which the source
    reads [index] and [mediaExt]. *)
Record AssetKey := { index : string; mediaExt : string }.

(** A Solana [Keypair], of which the source reads [secretKey]. *)
Record Keypair := { secretKey : string }.

(** The two signers of [arbundles] the source constructs. *)
Inductive Signer :=
| SolanaSigner (encodedSecret : string)
| ArweaveSigner (jwk : option string).

(** The object returned by [getArweave]. *)
Record Arweave := {
  host : string; port : Z; protocol : string; timeout : Z; logging : bool
}.

(** ** Effects *)

(** What a rejected promise or a [throw] carries. *)
Inductive Error :=
| ErrNeedKeypair
    (* 'To pay for uploads with SOL, you need to pass a Solana Keypair' *)
| ErrNeedJWK
    (* 'To pay for uploads with AR, you need to pass a Arweave JWK' *)
| ErrTooBig (k : string) (filePairSize : Z)
    (* `Image + Manifest filepair (${key}) too big (${sizeMB(filePairSize)}MB)
       for arBundles size limit of ...MB.` *)
| ErrStat (file : string)            (* stat rejects *)
| ErrReadFile (file : string)        (* readFile rejects *)
| ErrInvalidManifest (file : string) (* JSON.parse throws, or the parsed
                                        value has no [properties] object *)
| ErrTypeError                       (* property read on undefined *)
| ErrSignerConstruction
| ErrSign (d : DataItem)
| ErrStorageCost (bytes : Z)
| ErrFund (cost : Z)
| ErrUpload (d : DataItem)
| ErrPostBundle.

(** The calls on the external collaborators, as they are made. *)
Inductive Event :=
| EvStat (file : string)
| EvReadFile (file : string)
| EvCreateData (d : DataItem)
| EvSign (d : DataItem)
| EvStorageCost (bytes : Z)
| EvFund (cost : Z)
| EvUpload (d : DataItem)
| EvPostBundle (ds : list DataItem).

Inductive Outcome (A : Type) :=
| Fulfilled (a : A)
| Rejected (e : Error).
Arguments Fulfilled {A} a.
Arguments Rejected {A} e.

(** An awaited promise: the calls made until it settled, and how it settled. *)
Definition M (A : Type) : Type := (list Event * Outcome A)%type.

Definition ret {A} (a : A) : M A := ([], Fulfilled a).
Definition throw {A} (e : Error) : M A := ([], Rejected e).
Definition bind {A B} (m : M A) (f : A -> M B) : M B :=
  match m with
  | (t, Rejected e) => (t, Rejected e)
  | (t, Fulfilled a) => let (t', o) := f a in (t ++ t', o)
  end.
(** One external call: it is recorded, then it answers or rejects. *)
Definition call {A} (ev : Event) (answer : option A) (e : Error) : M A :=
  ([ev], match answer with Some a => Fulfilled a | None => Rejected e end).

(** [let* x := m in k] is [const x = await m; k]. *)
Notation "'let*' x ':=' m 'in' k" := (bind m (fun x => k))
  (at level 10, x pattern, m at level 100, k at level 200).

Definition trace {A} (m : M A) : list Event := fst m.
Definition outcome {A} (m : M A) : Outcome A := snd m.

(** The external collaborators. [None] is a rejected promise or a throw. *)
Record Env := {
  stat : string -> option Z;                 (* (await stat(file)).size *)
  readFile : string -> option string;
  JSON_parse : string -> option Manifest;    (* of an asset manifest *)
  JSON_stringify : Manifest -> string;
  getType : string -> string;
    (* mime; the type of every image is taken to be known: the null that
       mime answers for an extension it does not know is not represented *)
  getExtension : string -> string;           (* mime *)
  path_join : string -> string -> string;
  bs58_encode : string -> string;
  newSigner : Signer -> bool;                (* does the constructor return *)
  sign : Signer -> DataItem -> option string;    (* the id it assigns *)
  data_length : DataItem -> Z;               (* d.data.length *)
  getStorageCost : Z -> option Z;            (* bundlr.utils *)
  fund : Z -> option unit;                   (* bundlr *)
  upload : DataItem -> option string;        (* bundlr tx sign and upload *)
  postBundle : option string -> list DataItem -> option string
    (* bundleAndSignData, toTransaction, sign and post *)
}.

(** ** Constants and the path manifest *)

(** [const BUNDLE_SIZE_BYTE_LIMIT = 50 * 1024 * 1024]. *)
Definition BUNDLE_SIZE_BYTE_LIMIT : Z := 50 * 1024 * 1024.

Definition BASE_TAGS : list Tag :=
  [ {| tag_name := "App-Name"; tag_value := "Metaplex Candy Machine" |} ].

(** [contentTypeTags['json']] and [contentTypeTags['arweave-manifest']]. *)
Definition contentTypeTags_json : Tag :=
  {| tag_name := "Content-Type"; tag_value := "application/json" |}.
Definition contentTypeTags_arweave_manifest : Tag :=
  {| tag_name := "Content-Type";
     tag_value := "application/x.arweave-manifest+json" |}.

Definition imageTags : list Tag := BASE_TAGS.
Definition manifestTags : list Tag := BASE_TAGS ++ [contentTypeTags_json].
Definition arweavePathManifestTags : list Tag :=
  BASE_TAGS ++ [contentTypeTags_arweave_manifest].

Definition getArweave : Arweave :=
  {| host := "arweave.net"; port := 443; protocol := "https";
     timeout := 20000; logging := false |}.

Definition createArweavePathManifest
    (imageTxId manifestTxId mediaType : string) : ArweavePathManifest :=
  {| pm_manifest := "arweave/paths";
     pm_version := "0.1.0";
     paths := [ ("image" +:+ mediaType, imageTxId);
                ("metadata.json", manifestTxId) ];
     index_path := "metadata.json" |}.

(** [JSON.stringify] on a path manifest. A string is quoted with the escapes
    of JSON: the quote, the backslash and the control characters. *)
Definition dquote : string := String (ascii_of_nat 34) EmptyString.
Definition backslash : string := String (ascii_of_nat 92) EmptyString.

Definition hexDigit (n : nat) : string :=
  match String.get n "0123456789abcdef" with
  | Some c => String c EmptyString
  | None => EmptyString
  end.

Definition escapeChar (c : ascii) : string :=
  let n := nat_of_ascii c in
  if (n =? 34)%nat then backslash +:+ dquote
  else if (n =? 92)%nat then backslash +:+ backslash
  else if (n =? 8)%nat then backslash +:+ "b"
  else if (n =? 9)%nat then backslash +:+ "t"
  else if (n =? 10)%nat then backslash +:+ "n"
  else if (n =? 12)%nat then backslash +:+ "f"
  else if (n =? 13)%nat then backslash +:+ "r"
  else if (n <? 32)%nat then
    backslash +:+ "u00" +:+ hexDigit (n / 16) +:+ hexDigit (n mod 16)
  else String c EmptyString.

Fixpoint escape (s : string) : string :=
  match s with
  | EmptyString => EmptyString
  | String c rest => escapeChar c +:+ escape rest
  end.

Definition quote (s : string) : string := dquote +:+ escape s +:+ dquote.

Fixpoint stringifyPaths (ps : list (string * string)) : string :=
  match ps with
  | [] => EmptyString
  | [(name, txId)] => quote name +:+ ":{" +:+ quote "id" +:+ ":" +:+ quote txId +:+ "}"
  | (name, txId) :: rest =>
      quote name +:+ ":{" +:+ quote "id" +:+ ":" +:+ quote txId +:+ "},"
      +:+ stringifyPaths rest
  end.

Definition stringifyPathManifest (m : ArweavePathManifest) : string :=
  "{" +:+ quote "manifest" +:+ ":" +:+ quote (pm_manifest m) +:+ ","
  +:+ quote "version" +:+ ":" +:+ quote (pm_version m) +:+ ","
  +:+ quote "paths" +:+ ":{" +:+ stringifyPaths (paths m) +:+ "},"
  +:+ quote "index" +:+ ":{" +:+ quote "path" +:+ ":" +:+ quote (index_path m)
  +:+ "}}".

(** [Buffer.byteLength] of a string. *)
Definition byteLength (s : string) : Z := Z.of_nat (String.length s).

(** The size in bytes of a dummy Arweave Path Manifest, computed once. *)
Definition dummyAreaveManifestByteSize : Z :=
  let dummyAreaveManifest :=
    createArweavePathManifest
      "akBSbAEWTf6xDDnrG_BHKaxXjxoGuBnuhMnoYKUCDZo"
      "akBSbAEWTf6xDDnrG_BHKaxXjxoGuBnuhMnoYKUCDZo"
      ".png" in
  byteLength (stringifyPathManifest dummyAreaveManifest).

(** ** The bundle range *)

Section Upload.

Variable E : Env.

(** [[image, manifest].reduce(async (accP, file) => ..., Promise.resolve(init))]:
    the sizes are asked for one file after the other and added to [init]. *)
Definition sumFileSizes (filesOfPair : list string) (init : Z) : M Z :=
  fold_left
    (fun accP file =>
       let* acc := accP in
       let* sz := call (EvStat file) (stat E file) (ErrStat file) in
       ret (acc + sz))
    filesOfPair (ret init).

Definition filePairSize (fp : FilePair) : M Z :=
  sumFileSizes [image fp; manifest fp] dummyAreaveManifestByteSize.

(** The [for ... of] loop of [getBundleRange], with its two variables. *)
Fixpoint getBundleRange_loop (filePairs : list FilePair) (total : Z) (count : nat)
  : M BundleRange :=
  match filePairs with
  | [] => ret {| count := count; size := total |}
  | fp :: rest =>
      let* filePairSize := filePairSize fp in
      if total + filePairSize >=? BUNDLE_SIZE_BYTE_LIMIT then
        if (count =? 0)%nat then throw (ErrTooBig (key fp) filePairSize)
        else ret {| count := count; size := total |}
      else getBundleRange_loop rest (total + filePairSize) (S count)
  end.

Definition getBundleRange (filePairs : list FilePair) : M BundleRange :=
  getBundleRange_loop filePairs 0 0.

(** ** Data items *)

(** [createData(data, signer, { tags })]. It is taken to return: the tag
    values of the embedding are strings, and the case in which arbundles
    throws, a tag value that is null, belongs to the content type that
    [getType] leaves out. *)
Definition createData (bytes : string) (tgs : list Tag) : M DataItem :=
  let d := {| data := bytes; tags := tgs; id := EmptyString |} in
  ([EvCreateData d], Fulfilled d).

(** [await d.sign(signer)]: the item now has its id. *)
Definition signItem (signer : Signer) (d : DataItem) : M DataItem :=
  let* txId := call (EvSign d) (sign E signer d) (ErrSign d) in
  ret {| data := data d; tags := tags d; id := txId |}.

Definition getImageDataItem (signer : Signer) (image contentType : string)
  : M DataItem :=
  let* bytes := call (EvReadFile image) (readFile E image) (ErrReadFile image) in
  createData bytes
    (imageTags ++ [ {| tag_name := "Content-Type"; tag_value := contentType |} ]).

Definition getManifestDataItem (signer : Signer) (manifest : Manifest)
  : M DataItem :=
  createData (JSON_stringify E manifest) manifestTags.

Definition getArweavePathManifestDataItem
    (signer : Signer) (arweavePathManifest : ArweavePathManifest) : M DataItem :=
  createData (stringifyPathManifest arweavePathManifest) arweavePathManifestTags.

Definition getUpdatedManifest (manifestPath imageLink contentType : string)
  : M Manifest :=
  let* text := call (EvReadFile manifestPath) (readFile E manifestPath)
                    (ErrReadFile manifestPath) in
  let* manifest := match JSON_parse E text with
                   | Some m => ret m
                   | None => throw (ErrInvalidManifest manifestPath)
                   end in
  ret {| m_image := imageLink;
         properties :=
           {| files := [ {| file_type := contentType; file_uri := imageLink |} ] |};
         m_rest := m_rest manifest |}.

(** ** One file pair, one bundle *)

(** What the generator function's body closes over. *)
Record Closure := {
  storageType : StorageType;
  signer : Signer;
  arweave : Arweave;
  c_jwk : option string;
  walletKeyPair : option Keypair
}.

Definition StorageType_eqb (a b : StorageType) : bool :=
  match a, b with
  | ArweaveBundle, ArweaveBundle | ArweaveSol, ArweaveSol
  | OtherStorage, OtherStorage => true
  | _, _ => false
  end.

Definition arweaveLink (txId : string) : string := "https://arweave.net/" +:+ txId.

Definition processBundleFilePair (c : Closure)
    (acc : ProcessedBundleFilePairs) (filePair : FilePair)
  : M ProcessedBundleFilePairs :=
  let contentType := getType E (image filePair) in
  let* imageDataItem := getImageDataItem (signer c) (image filePair) contentType in
  let* imageDataItem := signItem (signer c) imageDataItem in
  let imageLink := arweaveLink (id imageDataItem) in
  let* manifest := getUpdatedManifest (manifest filePair) imageLink contentType in
  let* manifestDataItem := getManifestDataItem (signer c) manifest in
  let* manifestDataItem := signItem (signer c) manifestDataItem in
  let arweavePathManifest :=
    createArweavePathManifest (id imageDataItem) (id manifestDataItem)
      ("." +:+ getExtension E contentType) in
  let* arweavePathManifestDataItem :=
    getArweavePathManifestDataItem (signer c) arweavePathManifest in
  let* arweavePathManifestDataItem :=
    signItem (signer c) arweavePathManifestDataItem in
  let arweavePathManifestLink := arweaveLink (id manifestDataItem) in
  ret {| acc_cacheKeys := acc_cacheKeys acc ++ [key filePair];
         acc_dataItems :=
           acc_dataItems acc
           ++ [imageDataItem; manifestDataItem; arweavePathManifestDataItem];
         acc_arweavePathManifestLinks :=
           acc_arweavePathManifestLinks acc ++ [arweavePathManifestLink];
         acc_updatedManifests := acc_updatedManifests acc ++ [manifest] |}.

Definition emptyAcc : ProcessedBundleFilePairs :=
  {| acc_cacheKeys := []; acc_dataItems := [];
     acc_arweavePathManifestLinks := []; acc_updatedManifests := [] |}.

(** [bundleFilePairs.reduce(processBundleFilePair, Promise.resolve({...}))]. *)
Definition processBundleFilePairs (c : Closure) (bundleFilePairs : list FilePair)
  : M ProcessedBundleFilePairs :=
  fold_left
    (fun accP filePair => let* acc := accP in processBundleFilePair c acc filePair)
    bundleFilePairs (ret emptyAcc).

(** [for (const d of dataItems)]: one bundlr transaction per data item. *)
Fixpoint uploadEach (dataItems : list DataItem) : M unit :=
  match dataItems with
  | [] => ret tt
  | d :: rest =>
      let* _ := call (EvUpload d) (upload E d) (ErrUpload d) in
      uploadEach rest
  end.

Definition uploadSol (c : Closure) (dataItems : list DataItem) : M unit :=
  if StorageType_eqb (storageType c) ArweaveSol then
    let* kp := match walletKeyPair c with
               | Some kp => ret kp
               | None => throw ErrTypeError
               end in
    let bytes := fold_left (fun n d => n + data_length E d) dataItems 0 in
    let* cost := call (EvStorageCost bytes) (getStorageCost E bytes)
                      (ErrStorageCost bytes) in
    let* _ := call (EvFund cost) (fund E cost) (ErrFund cost) in
    uploadEach dataItems
  else ret tt.

Definition uploadBundle (c : Closure) (dataItems : list DataItem) : M unit :=
  if StorageType_eqb (storageType c) ArweaveBundle then
    let* _ := call (EvPostBundle dataItems) (postBundle E (c_jwk c) dataItems)
                   ErrPostBundle in
    ret tt
  else ret tt.

(** [filePairs.splice(0, count)]: the removed elements and what is left. *)
Definition splice0 {A} (l : list A) (n : nat) : list A * list A :=
  (take n l, drop n l).

(** [processBundle], the continuation of [getBundleRange(filePairs)]. It
    updates the array [filePairs] of the generator, so it takes the array and
    returns it: the splice is made first, whatever happens afterwards. *)
Definition processBundle (c : Closure) (filePairs : list FilePair)
    (range : BundleRange) : list FilePair * M UploadGeneratorResult :=
  let (bundleFilePairs, filePairs') := splice0 filePairs (count range) in
  (filePairs',
   let* processed := processBundleFilePairs c bundleFilePairs in
   let* _ := uploadSol c (acc_dataItems processed) in
   let* _ := uploadBundle c (acc_dataItems processed) in
   ret {| cacheKeys := acc_cacheKeys processed;
          arweavePathManifestLinks := acc_arweavePathManifestLinks processed;
          updatedManifests := acc_updatedManifests processed |}).

(** [getBundleRange(filePairs).then(processBundle)]. When the range is
    rejected, [processBundle] does not run and the array is as it was. *)
Definition bundleStep (c : Closure) (filePairs : list FilePair)
  : list FilePair * M UploadGeneratorResult :=
  match getBundleRange filePairs with
  | (t, Rejected e) => (filePairs, (t, Rejected e))
  | (t, Fulfilled range) =>
      let (filePairs', p) := processBundle c filePairs range in
      (filePairs', (t ++ trace p, outcome p))
  end.

(** ** The generator *)

(** A generator object of [makeArweaveBundleUploadGenerator]: created and not
    yet resumed (the body of a generator function runs at the first [next()]),
    suspended at one of the two [yield]s, or finished. Both [yield]s resume at
    the test of the [while] loop, with the closure and the array [filePairs]. *)
Inductive Generator :=
| Created (storage : StorageType) (dirname : string) (assets : list AssetKey)
          (jwk : option string) (walletKeyPair : option Keypair)
| Suspended (c : Closure) (filePairs : list FilePair)
| Finished.

(** What one [next()] gives: a yielded promise, [{ done: true }], or a throw. *)
Inductive IteratorResult :=
| Yield (p : M UploadGeneratorResult)
| Done
| Throw (e : Error).

Definition makeArweaveBundleUploadGenerator
    (storage : StorageType) (dirname : string) (assets : list AssetKey)
    (jwk : option string) (walletKeyPair : option Keypair) : Generator :=
  Created storage dirname assets jwk walletKeyPair.

Definition emptyResult : UploadGeneratorResult :=
  {| cacheKeys := []; arweavePathManifestLinks := []; updatedManifests := [] |}.

(** The body up to the first [yield]: the two checks, the signer, the array
    of file pairs. *)
Definition prologue
    (storage : StorageType) (dirname : string) (assets : list AssetKey)
    (jwk : option string) (walletKeyPair : option Keypair)
  : Error + (Closure * list FilePair) :=
  if StorageType_eqb storage ArweaveSol && negb (bool_decide (is_Some walletKeyPair))
  then inl ErrNeedKeypair
  else if StorageType_eqb storage ArweaveBundle
  then inl ErrNeedJWK
  else
    let made :=
      if StorageType_eqb storage ArweaveSol then
        match walletKeyPair with
        | Some kp => inr (SolanaSigner (bs58_encode E (secretKey kp)))
        | None => inl ErrTypeError
        end
      else inr (ArweaveSigner jwk) in
    match made with
    | inl e => inl e
    | inr signer =>
        if newSigner E signer then
          let filePairs :=
            map (fun asset : AssetKey =>
                   {| key := index asset;
                      image := path_join E dirname (index asset +:+ mediaExt asset);
                      manifest := path_join E dirname (index asset +:+ ".json") |})
                assets in
          inr ({| storageType := storage; signer := signer; arweave := getArweave;
                  c_jwk := jwk; walletKeyPair := walletKeyPair |},
               filePairs)
        else inl ErrSignerConstruction
    end.

(** One resumption, [generator.next()], by a caller that awaits the yielded
    promise before it resumes the generator again: the new state holds the
    array [filePairs] as the settled promise left it. *)
Definition next (g : Generator) : Generator * IteratorResult :=
  match g with
  | Created storage dirname assets jwk walletKeyPair =>
      match prologue storage dirname assets jwk walletKeyPair with
      | inl e => (Finished, Throw e)
      | inr (c, filePairs) => (Suspended c filePairs, Yield (ret emptyResult))
      end
  | Suspended c filePairs =>
      match filePairs with
      | [] => (Finished, Done)
      | _ :: _ =>
          let (filePairs', result) := bundleStep c filePairs in
          (Suspended c filePairs', Yield result)
      end
  | Finished => (Finished, Done)
  end.

(** How a caller's loop over the generator ended. *)
Inductive RunEnd :=
| RunDone
| RunThrew (e : Error)
| RunOutOfFuel (g : Generator).

(** The caller's loop, [for (const p of generator) await p], for at most
    [fuel] resumptions: the promises it was given and how it ended. A rejected
    promise does not stop this caller. *)
Fixpoint run (fuel : nat) (g : Generator)
  : list (M UploadGeneratorResult) * RunEnd :=
  match fuel with
  | O => ([], RunOutOfFuel g)
  | S fuel' =>
      match next g with
      | (g', Yield p) => let (ps, e) := run fuel' g' in (p :: ps, e)
      | (_, Done) => ([], RunDone)
      | (_, Throw e) => ([], RunThrew e)
      end
  end.

End Upload.

(** The results of the fulfilled promises of a run, in the order yielded. *)
Definition fulfilledResults (ps : list (M UploadGeneratorResult))
  : list UploadGeneratorResult :=
  omap (fun p => match outcome p with
                 | Fulfilled r => Some r
                 | Rejected _ => None
                 end) ps.

Definition isFulfilled {A} (p : M A) : Prop :=
  exists a, outcome p = Fulfilled a.

(** Events that hand something to the storage network. *)
Definition isSubmission (ev : Event) : bool :=
  match ev with
  | EvStorageCost _ | EvFund _ | EvUpload _ | EvPostBundle _ => true
  | _ => false
  end.

(** ** Vocabulary of the statements *)

(** Sum of a list of byte counts. *)
Definition sumZ (l : list Z) : Z := foldr Z.add 0 l.

(** What [getBundleRange] answers for pairs of sizes [sizes]: the first [k]
    pairs, in the order given, where [k] is the first position at which the
    running total would reach the limit (or the length of the list). *)
Definition greedyPrefix (sizes : list Z) (total : Z) (k : nat) : Prop :=
  (k <= length sizes)%nat /\
  (forall j, (1 <= j <= k)%nat ->
             total + sumZ (take j sizes) < BUNDLE_SIZE_BYTE_LIMIT) /\
  ((k < length sizes)%nat ->
   BUNDLE_SIZE_BYTE_LIMIT <= total + sumZ (take (S k) sizes)).

(** The keys reported by a list of results, in order, and how many they are. *)
Definition reportedKeys (rs : list UploadGeneratorResult) : list string :=
  concat (cacheKeys <$> rs).

Definition reportedCount (rs : list UploadGeneratorResult) : nat :=
  foldr (fun r n => (length (cacheKeys r) + n)%nat) 0%nat rs.

Definition isBuild (ev : Event) : bool :=
  match ev with
  | EvCreateData _ | EvSign _ => true
  | _ => false
  end.

(** The characters [JSON.stringify] leaves as they are. *)
Definition safeChar (ch : ascii) : bool :=
  let n := nat_of_ascii ch in
  (32 <=? n)%nat && negb (n =? 34)%nat && negb (n =? 92)%nat.

Fixpoint safeString (s : string) : bool :=
  match s with
  | EmptyString => true
  | String ch rest => safeChar ch && safeString rest
  end.

Definition isUpload (ev : Event) : bool :=
  match ev with
  | EvUpload _ => true
  | _ => false
  end.

Definition isPostBundle (ev : Event) : bool :=
  match ev with
  | EvPostBundle _ => true
  | _ => false
  end.

(** The file an event asks the file system about. *)
Definition fileOf (ev : Event) : option string :=
  match ev with
  | EvStat f | EvReadFile f => Some f
  | _ => None
  end.

(** The files of a list of pairs. *)
Definition pairFiles (fps : list FilePair) : list string :=
  fps ≫= (fun fp => [image fp; manifest fp]).

(** Every error but the one of reading [secretKey] off an undefined
    [walletKeyPair]. *)
Definition notKeypairRead (e : Error) : bool :=
  match e with
  | ErrTypeError => false
  | _ => true
  end.

(** Every error [m] can be rejected with satisfies [P]. *)
Definition errs {A} (P : Error -> bool) (m : M A) : Prop :=
  forall e, outcome m = Rejected e -> P e = true.

(** The file system is asked about no file outside [fs]. *)
Definition confined (fs : list string) (t : list Event) : Prop :=
  forall ev f, ev ∈ t -> fileOf ev = Some f -> f ∈ fs.

Section Vocabulary.

Variable E : Env.
Variable c : Closure.

(** The [stat] calls made for a list of pairs: image, then manifest. *)
Definition statEvents (fps : list FilePair) : list Event :=
  fps ≫= (fun fp => [EvStat (image fp); EvStat (manifest fp)]).

(** Both files of [fp] can be measured, and [s] is what the loop adds for it:
    the image, the manifest and the dummy path manifest. *)
Definition measured (fp : FilePair) (s : Z) : Prop :=
  exists a b, stat E (image fp) = Some a /\ stat E (manifest fp) = Some b /\
              s = dummyAreaveManifestByteSize + a + b.

(** The image data item of a pair, as [createData] returns it. *)
Definition imageItem (fp : FilePair) (bytes : string) : DataItem :=
  {| data := bytes;
     tags := imageTags ++ [ {| tag_name := "Content-Type";
                               tag_value := getType E (image fp) |} ];
     id := EmptyString |}.

Definition withId (d : DataItem) (txId : string) : DataItem :=
  {| data := data d; tags := tags d; id := txId |}.

(** The manifest of a pair after [getUpdatedManifest]. *)
Definition updatedManifest (fp : FilePair) (imageTxId : string) (m : Manifest)
  : Manifest :=
  {| m_image := arweaveLink imageTxId;
     properties :=
       {| files := [ {| file_type := getType E (image fp);
                        file_uri := arweaveLink imageTxId |} ] |};
     m_rest := m_rest m |}.

Definition manifestItem (m : Manifest) : DataItem :=
  {| data := JSON_stringify E m; tags := manifestTags; id := EmptyString |}.

Definition pathManifestItem (fp : FilePair) (imageTxId manifestTxId : string)
  : DataItem :=
  {| data := stringifyPathManifest
               (createArweavePathManifest imageTxId manifestTxId
                  ("." +:+ getExtension E (getType E (image fp))));
     tags := arweavePathManifestTags; id := EmptyString |}.



(** No event of the trace hands anything to the network. *)
Definition noSubmission (t : list Event) : bool :=
  forallb (fun ev => negb (isSubmission ev)) t.

(** The [reduce] over the pairs of a bundle, from any accumulator promise. *)
Definition reducePairs (accP : M ProcessedBundleFilePairs) (l : list FilePair)
  : M ProcessedBundleFilePairs :=
  fold_left
    (fun accP filePair => let* acc := accP in processBundleFilePair E c acc filePair)
    l accP.

(** The generator after [n] resumptions. *)
Definition after (n : nat) (g : Generator) : Generator :=
  Nat.iter n (fun g => fst (next E g)) g.

(** The first file of a pair that [stat] rejects, image first. *)
Definition firstUnmeasured (fp : FilePair) : option string :=
  match stat E (image fp) with
  | None => Some (image fp)
  | Some _ =>
      match stat E (manifest fp) with
      | None => Some (manifest fp)
      | Some _ => None
      end
  end.

(** The [stat] calls made for one pair: the manifest is asked for only when
    the image was measured. *)
Definition statEventsOf (fp : FilePair) : list Event :=
  match stat E (image fp) with
  | None => [EvStat (image fp)]
  | Some _ => [EvStat (image fp); EvStat (manifest fp)]
  end.

(** [dataItems.reduce((c, d) => c + d.data.length, 0)]. *)
Definition totalBytes (dataItems : list DataItem) : Z :=
  fold_left (fun n d => n + data_length E d) dataItems 0.

(** Every data item of the list is taken by the network. *)
Definition allUploaded (dataItems : list DataItem) : Prop :=
  Forall (fun d => is_Some (upload E d)) dataItems.

(** What a pair that went through has made: its three signed data items and
    its updated manifest. The image item holds the image file; the manifest
    points at the image item's id; the manifest item holds the updated
    manifest; the path manifest item names the ids of the other two. *)
Definition pairFacts (fp : FilePair)
    (img man pm : DataItem) (m : Manifest) : Prop :=
  readFile E (image fp) = Some (data img) /\
  tags img = BASE_TAGS ++ [ {| tag_name := "Content-Type";
                               tag_value := getType E (image fp) |} ] /\
  sign E (signer c) (withId img EmptyString) = Some (id img) /\
  m_image m = arweaveLink (id img) /\
  files (properties m) =
    [ {| file_type := getType E (image fp); file_uri := arweaveLink (id img) |} ] /\
  data man = JSON_stringify E m /\
  tags man = BASE_TAGS ++ [contentTypeTags_json] /\
  sign E (signer c) (withId man EmptyString) = Some (id man) /\
  data pm = stringifyPathManifest
              (createArweavePathManifest (id img) (id man)
                 ("." +:+ getExtension E (getType E (image fp)))) /\
  tags pm = BASE_TAGS ++ [contentTypeTags_arweave_manifest] /\
  sign E (signer c) (withId pm EmptyString) = Some (id pm).

(** The data items, links and manifests made for a list of pairs: three data
    items, one link and one manifest per pair, in the order of the pairs. *)
Inductive Processed
  : list FilePair -> list DataItem -> list string -> list Manifest -> Prop :=
| Processed_nil : Processed [] [] [] []
| Processed_cons fp l img man pm m ds ls ms :
    pairFacts fp img man pm m ->
    Processed l ds ls ms ->
    Processed (fp :: l) (img :: man :: pm :: ds)
      (arweaveLink (id man) :: ls) (m :: ms).

End Vocabulary.

(** ** A small world to run the code in *)

Module World.

(** A file: its size as [stat] reports it, and its contents. *)
Definition File : Type := (string * (Z * string))%type.

Definition lookupFile (fs : list File) (p : string) : option (Z * string) :=
  match find (fun f : File => String.eqb (fst f) p) fs with
  | Some f => Some (snd f)
  | None => None
  end.

(** A manifest file parses when it starts with a brace. *)
Definition parse (text : string) : option Manifest :=
  if String.prefix "{" text
  then Some {| m_image := "image.png"; properties := {| files := [] |};
               m_rest := text |}
  else None.

Definition stringify (m : Manifest) : string :=
  "{" +:+ quote "image" +:+ ":" +:+ quote (m_image m) +:+ "}".

Definition env (fs : list File) : Env :=
  {| stat := fun p => fst <$> lookupFile fs p;
     readFile := fun p => snd <$> lookupFile fs p;
     JSON_parse := parse;
     JSON_stringify := stringify;
     getType := fun _ => "image/png";
     getExtension := fun _ => "png";
     path_join := fun d f => d +:+ "/" +:+ f;
     bs58_encode := fun s => s;
     newSigner := fun _ => true;
     sign := fun _ d => Some ("tx-" +:+ data d);
     data_length := fun d => byteLength (data d);
     getStorageCost := fun b => Some b;
     fund := fun _ => Some tt;
     upload := fun d => Some (id d);
     postBundle := fun _ _ => Some "bundle-tx" |}.

(** The same world, with a network that refuses the data items whose data is
    [refused]. *)
Definition envRefusing (fs : list File) (refused : string) : Env :=
  {| stat := stat (env fs);
     readFile := readFile (env fs);
     JSON_parse := parse;
     JSON_stringify := stringify;
     getType := getType (env fs);
     getExtension := getExtension (env fs);
     path_join := path_join (env fs);
     bs58_encode := bs58_encode (env fs);
     newSigner := newSigner (env fs);
     sign := sign (env fs);
     data_length := data_length (env fs);
     getStorageCost := getStorageCost (env fs);
     fund := fund (env fs);
     upload := fun d => if String.eqb (data d) refused then None else Some (id d);
     postBundle := postBundle (env fs) |}.

Definition MB : Z := 1024 * 1024.

(** The assets of [a/]: three pairs that fit a bundle, one that does not,
    and one whose manifest is not JSON. *)
Definition files : list File :=
  [ ("a/0.png", (10 * MB, "P0")); ("a/0.json", (100, "{0}"));
    ("a/1.png", (10 * MB, "P1")); ("a/1.json", (100, "{1}"));
    ("a/2.png", (40 * MB, "P2")); ("a/2.json", (100, "{2}"));
    ("a/3.png", (60 * MB, "P3")); ("a/3.json", (100, "{3}"));
    ("a/4.png", (1 * MB, "P4")); ("a/4.json", (100, "not json")) ].

Definition asset (i : string) : AssetKey := {| index := i; mediaExt := ".png" |}.
Definition pair (i : string) : FilePair :=
  {| key := i; image := "a/" +:+ i +:+ ".png"; manifest := "a/" +:+ i +:+ ".json" |}.

Definition kp : Keypair := {| secretKey := "secret" |}.

Definition closureSol : Closure :=
  {| storageType := ArweaveSol; signer := SolanaSigner "secret";
     arweave := getArweave; c_jwk := None; walletKeyPair := Some kp |}.

(** A closure with a storage that is neither of the two the source names. *)
Definition closureOther : Closure :=
  {| storageType := OtherStorage; signer := ArweaveSigner (Some "jwk");
     arweave := getArweave; c_jwk := Some "jwk"; walletKeyPair := None |}.

End World.
(** ** The monad *)

Section Monad.

Context {A B : Type}.

Lemma outcome_bind (m : M A) (f : A -> M B) :
  outcome (bind m f) =
  match outcome m with
  | Fulfilled a => outcome (f a)
  | Rejected e => Rejected e
  end.
Proof.
  destruct m as [t [a | e]]; simpl; [| reflexivity].
  destruct (f a); reflexivity.
Qed.

Lemma trace_bind (m : M A) (f : A -> M B) :
  trace (bind m f) =
  match outcome m with
  | Fulfilled a => trace m ++ trace (f a)
  | Rejected _ => trace m
  end.
Proof.
  destruct m as [t [a | e]]; simpl; [| reflexivity].
  destruct (f a); reflexivity.
Qed.


Lemma outcome_call (ev : Event) (answer : option A) (e : Error) :
  outcome (call ev answer e) =
  match answer with Some a => Fulfilled a | None => Rejected e end.
Proof. reflexivity. Qed.

Lemma trace_call (ev : Event) (answer : option A) (e : Error) :
  trace (call ev answer e) = [ev].
Proof. reflexivity. Qed.

End Monad.

(** ** The bundle range *)

Section Range.

Variable E : Env.

Lemma dummyAreaveManifestByteSize_value : dummyAreaveManifestByteSize = 223.
Proof. vm_compute. reflexivity. Qed.

Lemma filePairSize_unfold (fp : FilePair) :
  filePairSize E fp =
  match stat E (image fp) with
  | None => ([EvStat (image fp)], Rejected (ErrStat (image fp)))
  | Some a =>
      ([EvStat (image fp); EvStat (manifest fp)],
       match stat E (manifest fp) with
       | None => Rejected (ErrStat (manifest fp))
       | Some b => Fulfilled (dummyAreaveManifestByteSize + a + b)
       end)
  end.
Proof.
  unfold filePairSize, sumFileSizes, call, bind, ret. cbn [fold_left].
  destruct (stat E (image fp)) as [a |]; [| reflexivity].
  destruct (stat E (manifest fp)) as [b |]; reflexivity.
Qed.

Lemma filePairSize_measured (fp : FilePair) (s : Z) :
  measured E fp s ->
  filePairSize E fp = ([EvStat (image fp); EvStat (manifest fp)], Fulfilled s).
Proof.
  intros (a & b & Ha & Hb & ->). rewrite filePairSize_unfold, Ha, Hb. reflexivity.
Qed.

Lemma filePairSize_fulfilled (fp : FilePair) (s : Z) :
  outcome (filePairSize E fp) = Fulfilled s -> measured E fp s.
Proof.
  rewrite filePairSize_unfold. unfold measured.
  destruct (stat E (image fp)) as [a |]; [| discriminate].
  destruct (stat E (manifest fp)) as [b |]; [| discriminate].
  simpl. intros [= <-]. eauto.
Qed.

(** One turn of the loop, once the pair has been measured. *)
Lemma getBundleRange_loop_cons (fp : FilePair) (rest : list FilePair)
    (total : Z) (n : nat) (s : Z) :
  measured E fp s ->
  getBundleRange_loop E (fp :: rest) total n =
  bind ([EvStat (image fp); EvStat (manifest fp)], Fulfilled s)
    (fun s =>
       if total + s >=? BUNDLE_SIZE_BYTE_LIMIT then
         if (n =? 0)%nat then throw (ErrTooBig (key fp) s)
         else ret {| count := n; size := total |}
       else getBundleRange_loop E rest (total + s) (S n)).
Proof.
  intros H. cbn [getBundleRange_loop]. rewrite (filePairSize_measured _ _ H).
  reflexivity.
Qed.

(** A fulfilled range, for any files: the count only grows, the total stays
    below the limit, and a pair was taken unless the list was empty. *)
Lemma getBundleRange_loop_fulfilled (fps : list FilePair) :
  forall (total : Z) (n : nat) (r : BundleRange),
    total < BUNDLE_SIZE_BYTE_LIMIT ->
    outcome (getBundleRange_loop E fps total n) = Fulfilled r ->
    (n <= count r <= n + length fps)%nat /\ size r < BUNDLE_SIZE_BYTE_LIMIT /\
    (fps <> [] -> (1 <= count r)%nat).
Proof.
  induction fps as [| fp rest IH]; intros total n r Htot Hout.
  - simpl in Hout. injection Hout as <-. simpl.
    repeat split; [lia | lia | lia | congruence].
  - cbn [getBundleRange_loop] in Hout. rewrite outcome_bind in Hout.
    destruct (outcome (filePairSize E fp)) as [s | e]; [| discriminate].
    destruct (Z.geb_spec (total + s) BUNDLE_SIZE_BYTE_LIMIT) as [Hge | Hlt].
    + destruct (Nat.eqb_spec n 0) as [-> | Hn]; [discriminate |].
      injection Hout as <-. simpl. repeat split; lia.
    + destruct (IH _ _ _ Hlt Hout) as (Hc & Hs & _). simpl.
      repeat split; [lia | lia | exact Hs | lia].
Qed.

Lemma getBundleRange_loop_greedy (fps : list FilePair) (sizes : list Z) :
  Forall2 (measured E) fps sizes ->
  forall (total : Z) (n : nat),
    match getBundleRange_loop E fps total n with
    | (t, Fulfilled r) =>
        exists k, count r = (n + k)%nat /\
                  size r = total + sumZ (take k sizes) /\
                  greedyPrefix sizes total k /\
                  t = statEvents (take (S k) fps)
    | (t, Rejected e) =>
        n = 0%nat /\
        exists fp rest s srest,
          fps = fp :: rest /\ sizes = s :: srest /\
          BUNDLE_SIZE_BYTE_LIMIT <= total + s /\
          e = ErrTooBig (key fp) s /\ t = statEvents [fp]
    end.
Proof.
  induction 1 as [| fp s rest srest Hm Hrest IH]; intros total n.
  - simpl. exists 0%nat. unfold greedyPrefix. simpl.
    repeat split; lia.
  - rewrite (getBundleRange_loop_cons fp rest total n s Hm). unfold bind.
    destruct (Z.geb_spec (total + s) BUNDLE_SIZE_BYTE_LIMIT) as [Hge | Hlt].
    + destruct (Nat.eqb_spec n 0) as [-> | Hn]; simpl.
      * split; [reflexivity |]. exists fp, rest, s, srest. repeat split; lia.
      * exists 0%nat. unfold greedyPrefix. simpl.
        repeat split; lia.
    + specialize (IH (total + s) (S n)).
      destruct (getBundleRange_loop E rest (total + s) (S n)) as [t' [r | e]].
      * destruct IH as (k & Hc & Hs & (Hk & Hpre & Hstop) & Ht).
        exists (S k). unfold greedyPrefix. cbn [take length sumZ foldr].
        fold (sumZ (take k srest)). repeat split.
        -- lia.
        -- lia.
        -- lia.
        -- intros [| j] Hj; [lia |]. cbn [take sumZ foldr].
           fold (sumZ (take j srest)).
           destruct j as [| j].
           ++ rewrite take_0. simpl. lia.
           ++ specialize (Hpre (S j)). lia.
        -- intros Hlen. fold (sumZ (take (S k) srest)).
           specialize (Hstop ltac:(lia)). lia.
        -- rewrite Ht. reflexivity.
      * destruct IH as [Hn _]. discriminate.
Qed.

End Range.

(** ** Claims on the bundle range *)

Section RangeClaims.

Variable E : Env.

(** C1. For every list of pending pairs whose files can be measured,
    [getBundleRange] adds up, in the order supplied, the size of each pair's
    image plus its manifest plus a fixed overhead, the byte length (223) of
    the dummy path manifest; it stops at the first pair with which the total
    would meet or exceed [BUNDLE_SIZE_BYTE_LIMIT] = 50 * 1024 * 1024 and
    answers the count and total reached, having measured E the pairs up to that
    one and no other; the one case in which it answers no range is a first
    pair that alone reaches the limit. *)
Theorem getBundleRange_greedy (fps : list FilePair) (sizes : list Z) :
  Forall2 (measured E) fps sizes ->
  dummyAreaveManifestByteSize =
    byteLength (stringifyPathManifest
                  (createArweavePathManifest
                     "akBSbAEWTf6xDDnrG_BHKaxXjxoGuBnuhMnoYKUCDZo"
                     "akBSbAEWTf6xDDnrG_BHKaxXjxoGuBnuhMnoYKUCDZo" ".png")) /\
  dummyAreaveManifestByteSize = 223 /\
  BUNDLE_SIZE_BYTE_LIMIT = 52428800 /\
  match outcome (getBundleRange E fps) with
  | Fulfilled r =>
      size r = sumZ (take (count r) sizes) /\
      greedyPrefix sizes 0 (count r) /\
      trace (getBundleRange E fps) = statEvents (take (S (count r)) fps)
  | Rejected e =>
      exists fp rest s srest,
        fps = fp :: rest /\ sizes = s :: srest /\
        BUNDLE_SIZE_BYTE_LIMIT <= s /\ e = ErrTooBig (key fp) s
  end.
Proof.
  intros Hm. split; [reflexivity |].
  split; [apply dummyAreaveManifestByteSize_value |].
  split; [reflexivity |].
  pose proof (getBundleRange_loop_greedy E fps sizes Hm 0 0%nat) as H.
  unfold getBundleRange.
  destruct (getBundleRange_loop E fps 0 0) as [t [r | e]]; simpl.
  - destruct H as (k & Hc & Hs & Hg & Ht). simpl in Hc. subst k.
    repeat split; try apply Hg; [lia | exact Ht].
  - destruct H as (_ & fp & rest & s & srest & -> & -> & Hge & -> & _).
    exists fp, rest, s, srest. repeat split. lia.
Qed.

(** C2. If the size of the first pending pair (image plus manifest plus the
    fixed overhead) alone meets or exceeds the limit, [getBundleRange] is
    rejected with the too-big error made from that pair's key and its
    measured E size, after measuring that pair only; and for a list that is not
    empty no fulfilled range has count 0. *)
Theorem getBundleRange_first_pair_too_big
    (fp : FilePair) (rest : list FilePair) (a b : Z) :
  stat E (image fp) = Some a ->
  stat E (manifest fp) = Some b ->
  BUNDLE_SIZE_BYTE_LIMIT <= dummyAreaveManifestByteSize + a + b ->
  getBundleRange E (fp :: rest) =
    ([EvStat (image fp); EvStat (manifest fp)],
     Rejected (ErrTooBig (key fp) (dummyAreaveManifestByteSize + a + b)))
  /\ (forall fps r, fps <> [] ->
                    outcome (getBundleRange E fps) = Fulfilled r ->
                    count r <> 0%nat).
Proof.
  intros Ha Hb Hbig. split.
  - unfold getBundleRange.
    rewrite (getBundleRange_loop_cons E fp rest 0 0
               (dummyAreaveManifestByteSize + a + b)) by (red; eauto).
    unfold bind.
    destruct (Z.geb_spec (0 + (dummyAreaveManifestByteSize + a + b))
                BUNDLE_SIZE_BYTE_LIMIT) as [_ | Hlt]; [reflexivity | lia].
  - intros fps r Hne Hout.
    destruct (getBundleRange_loop_fulfilled E fps 0 0%nat r) as (_ & _ & H);
      [reflexivity | exact Hout |].
    specialize (H Hne). lia.
Qed.

(** C3. For every pending list that is not empty and on which
    [getBundleRange] does not fail, the count is at least 1; and whenever the
    count is greater than 1, the total size is strictly below the limit. *)
Theorem getBundleRange_count_and_size (fps : list FilePair) (r : BundleRange) :
  fps <> [] ->
  outcome (getBundleRange E fps) = Fulfilled r ->
  (1 <= count r)%nat /\
  ((1 < count r)%nat -> size r < BUNDLE_SIZE_BYTE_LIMIT).
Proof.
  intros Hne Hout.
  destruct (getBundleRange_loop_fulfilled E fps 0 0%nat r) as (_ & Hs & H);
    [reflexivity | exact Hout |].
  split; [exact (H Hne) | intros _; exact Hs].
Qed.

End RangeClaims.

Lemma measured_world (i : string) (a b s : Z) :
  stat (World.env World.files) (image (World.pair i)) = Some a ->
  stat (World.env World.files) (manifest (World.pair i)) = Some b ->
  s = 223 + a + b ->
  measured (World.env World.files) (World.pair i) s.
Proof.
  intros Ha Hb ->. exists a, b. repeat split; assumption.
Defined.

(** The scenario of three pairs of 10MB, 10MB and 40MB: the first bundle is
    the first two pairs. *)
Lemma getBundleRange_greedy_witness :
  match outcome (getBundleRange (World.env World.files)
                   [World.pair "0"; World.pair "1"; World.pair "2"]) with
  | Fulfilled r =>
      count r = 2%nat /\ size r = 20972166 /\
      greedyPrefix [10486083; 10486083; 41943363] 0 (count r)
  | Rejected _ => False
  end.
Proof.
  pose proof (getBundleRange_greedy (World.env World.files)
                [World.pair "0"; World.pair "1"; World.pair "2"]
                [10486083; 10486083; 41943363]) as H.
  destruct H as (_ & _ & _ & H).
  - repeat constructor;
      (eapply measured_world; [vm_compute; reflexivity ..]).
  - revert H. vm_compute (outcome _). intros (_ & H & _).
    repeat split; [exact (proj1 H) | apply H | apply H].
Defined.

Lemma getBundleRange_first_pair_too_big_witness :
  getBundleRange (World.env World.files) [World.pair "3"; World.pair "0"] =
    ([EvStat "a/3.png"; EvStat "a/3.json"], Rejected (ErrTooBig "3" 62914883)).
Proof.
  exact (proj1 (getBundleRange_first_pair_too_big (World.env World.files)
                  (World.pair "3") [World.pair "0"] (60 * World.MB) 100
                  eq_refl eq_refl ltac:(vm_compute; discriminate))).
Defined.

Lemma getBundleRange_count_and_size_witness :
  (1 <= 2)%nat /\ ((1 < 2)%nat -> 20972166 < BUNDLE_SIZE_BYTE_LIMIT).
Proof.
  exact (getBundleRange_count_and_size (World.env World.files)
           [World.pair "0"; World.pair "1"; World.pair "2"]
           {| count := 2; size := 20972166 |}
           ltac:(discriminate) ltac:(vm_compute; reflexivity)).
Defined.

(** ** One file pair *)

Section Pair.

Variable E : Env.
Variable c : Closure.

Ltac run_pair :=
  unfold processBundleFilePair, getImageDataItem, signItem, getUpdatedManifest,
    getManifestDataItem, getArweavePathManifestDataItem, createData, call,
    bind, ret, throw;
  cbn [data tags id].

(** A pair that goes through: the six answers it got, and what it pushed. *)
Lemma processBundleFilePair_fulfilled
    (acc acc' : ProcessedBundleFilePairs) (fp : FilePair) :
  outcome (processBundleFilePair E c acc fp) = Fulfilled acc' ->
  exists bytes i1 text m i2 i3,
    readFile E (image fp) = Some bytes /\
    sign E (signer c) (imageItem E fp bytes) = Some i1 /\
    readFile E (manifest fp) = Some text /\
    JSON_parse E text = Some m /\
    sign E (signer c) (manifestItem E (updatedManifest E fp i1 m)) = Some i2 /\
    sign E (signer c) (pathManifestItem E fp i1 i2) = Some i3 /\
    acc' =
      {| acc_cacheKeys := acc_cacheKeys acc ++ [key fp];
         acc_dataItems :=
           acc_dataItems acc
           ++ [ withId (imageItem E fp bytes) i1;
                withId (manifestItem E (updatedManifest E fp i1 m)) i2;
                withId (pathManifestItem E fp i1 i2) i3 ];
         acc_arweavePathManifestLinks :=
           acc_arweavePathManifestLinks acc ++ [arweaveLink i2];
         acc_updatedManifests :=
           acc_updatedManifests acc ++ [updatedManifest E fp i1 m] |}.
Proof.
  run_pair.
  destruct (readFile E (image fp)) as [bytes |] eqn:Hb; [| discriminate].
  fold (imageItem E fp bytes).
  destruct (sign E (signer c) (imageItem E fp bytes)) as [i1 |] eqn:H1;
    [| discriminate].
  cbn [data tags id].
  destruct (readFile E (manifest fp)) as [text |] eqn:Ht; [| discriminate].
  destruct (JSON_parse E text) as [m |] eqn:Hm; [| discriminate].
  cbn [data tags id]. fold (updatedManifest E fp i1 m).
  fold (manifestItem E (updatedManifest E fp i1 m)).
  destruct (sign E (signer c) (manifestItem E (updatedManifest E fp i1 m)))
    as [i2 |] eqn:H2; [| discriminate].
  cbn [data tags id]. fold (pathManifestItem E fp i1 i2).
  destruct (sign E (signer c) (pathManifestItem E fp i1 i2)) as [i3 |] eqn:H3;
    [| discriminate].
  simpl. intros [= <-].
  exists bytes, i1, text, m, i2, i3. repeat split; assumption.
Qed.

(** Whatever happens to a pair, nothing is handed to the network. *)
Lemma processBundleFilePair_no_submission
    (acc : ProcessedBundleFilePairs) (fp : FilePair) :
  forallb (fun ev => negb (isSubmission ev))
    (trace (processBundleFilePair E c acc fp)) = true.
Proof.
  run_pair.
  destruct (readFile E (image fp)) as [bytes |]; [| reflexivity].
  destruct (sign E (signer c) _) as [i1 |]; [| reflexivity].
  cbn [data tags id].
  destruct (readFile E (manifest fp)) as [text |]; [| reflexivity].
  destruct (JSON_parse E text) as [m |]; [| reflexivity].
  cbn [data tags id].
  destruct (sign E (signer c) _) as [i2 |]; [| reflexivity].
  cbn [data tags id].
  destruct (sign E (signer c) _) as [i3 |]; reflexivity.
Qed.



End Pair.

(** ** One bundle *)

Section Bundle.

Variable E : Env.
Variable c : Closure.


Lemma reducePairs_cons (accP : M ProcessedBundleFilePairs)
    (fp : FilePair) (l : list FilePair) :
  reducePairs E c accP (fp :: l) =
  reducePairs E c (let* acc := accP in processBundleFilePair E c acc fp) l.
Proof. reflexivity. Qed.


Lemma reducePairs_keys (l : list FilePair) :
  forall accP acc',
    outcome (reducePairs E c accP l) = Fulfilled acc' ->
    exists acc0, outcome accP = Fulfilled acc0 /\
                 acc_cacheKeys acc' = acc_cacheKeys acc0 ++ map key l.
Proof.
  induction l as [| fp l IH]; intros accP acc' H.
  - exists acc'. simpl in *. rewrite app_nil_r. auto.
  - rewrite reducePairs_cons in H. apply IH in H.
    destruct H as (acc1 & H1 & Hk). rewrite outcome_bind in H1.
    destruct (outcome accP) as [acc0 | e]; [| discriminate].
    exists acc0. split; [reflexivity |].
    apply processBundleFilePair_fulfilled in H1.
    destruct H1 as (? & ? & ? & ? & ? & ? & _ & _ & _ & _ & _ & _ & ->).
    rewrite Hk. cbn [acc_cacheKeys map]. rewrite <- app_assoc. reflexivity.
Qed.

Lemma reducePairs_no_submission (l : list FilePair) :
  forall accP, noSubmission (trace accP) = true ->
               noSubmission (trace (reducePairs E c accP l)) = true.
Proof.
  induction l as [| fp l IH]; intros accP H; [exact H |].
  rewrite reducePairs_cons. apply IH. rewrite trace_bind.
  destruct (outcome accP) as [acc0 | e]; [| exact H].
  unfold noSubmission. rewrite forallb_app. apply andb_true_intro.
  split; [exact H | apply processBundleFilePair_no_submission].
Qed.


Lemma processBundle_splice (fps : list FilePair) (range : BundleRange) :
  fst (processBundle E c fps range) = drop (count range) fps.
Proof. reflexivity. Qed.

Lemma processBundle_fulfilled (fps : list FilePair) (range : BundleRange)
    (r : UploadGeneratorResult) :
  outcome (snd (processBundle E c fps range)) = Fulfilled r ->
  cacheKeys r = map key (take (count range) fps).
Proof.
  unfold processBundle, splice0. cbn [snd].
  rewrite outcome_bind.
  destruct (outcome (processBundleFilePairs E c (take (count range) fps)))
    as [processed |] eqn:Hp; [| discriminate].
  rewrite outcome_bind.
  destruct (outcome (uploadSol E c (acc_dataItems processed))); [| discriminate].
  rewrite outcome_bind.
  destruct (outcome (uploadBundle E c (acc_dataItems processed))); [| discriminate].
  intros [= <-]. cbn [cacheKeys].
  apply (reducePairs_keys _ (ret emptyAcc)) in Hp.
  destruct Hp as (acc0 & [= <-] & Hk). exact Hk.
Qed.


(** [bundleStep], by the outcome of the range. *)
Lemma bundleStep_range_rejected (fps : list FilePair) (e : Error) :
  outcome (getBundleRange E fps) = Rejected e ->
  bundleStep E c fps = (fps, (trace (getBundleRange E fps), Rejected e)).
Proof.
  unfold bundleStep. destruct (getBundleRange E fps) as [t [r | e']]; simpl;
    [discriminate | congruence].
Qed.

Lemma bundleStep_range_fulfilled (fps : list FilePair) (range : BundleRange) :
  outcome (getBundleRange E fps) = Fulfilled range ->
  bundleStep E c fps =
    (drop (count range) fps,
     (trace (getBundleRange E fps) ++ trace (snd (processBundle E c fps range)),
      outcome (snd (processBundle E c fps range)))).
Proof.
  unfold bundleStep. destruct (getBundleRange E fps) as [t [r | e']]; simpl;
    [| discriminate].
  intros [= ->]. reflexivity.
Qed.

Lemma next_Suspended_cons (fp : FilePair) (rest : list FilePair) :
  next E (Suspended c (fp :: rest)) =
    (Suspended c (fst (bundleStep E c (fp :: rest))),
     Yield (snd (bundleStep E c (fp :: rest)))).
Proof.
  cbn [next]. destruct (bundleStep E c (fp :: rest)); reflexivity.
Qed.

End Bundle.

(** ** The generator *)

Lemma reportedCount_length (rs : list UploadGeneratorResult) :
  reportedCount rs = length (reportedKeys rs).
Proof.
  induction rs as [| r rs IH]; [reflexivity |].
  unfold reportedKeys in *. cbn [reportedCount foldr fmap list_fmap concat].
  rewrite length_app. fold (reportedCount rs). rewrite IH. reflexivity.
Qed.

Lemma fulfilledResults_cons_fulfilled
    (p : M UploadGeneratorResult) (ps : list (M UploadGeneratorResult))
    (r : UploadGeneratorResult) :
  outcome p = Fulfilled r ->
  fulfilledResults (p :: ps) = r :: fulfilledResults ps.
Proof. intros H. unfold fulfilledResults. cbn [omap list_omap]. rewrite H. reflexivity. Qed.

Lemma fulfilledResults_cons_rejected
    (p : M UploadGeneratorResult) (ps : list (M UploadGeneratorResult))
    (e : Error) :
  outcome p = Rejected e ->
  fulfilledResults (p :: ps) = fulfilledResults ps.
Proof. intros H. unfold fulfilledResults. cbn [omap list_omap]. rewrite H. reflexivity. Qed.

Section GeneratorLemmas.

Variable E : Env.

Lemma bundleStep_pending (c : Closure) (fps : list FilePair) :
  exists k, fst (bundleStep E c fps) = drop k fps.
Proof.
  destruct (outcome (getBundleRange E fps)) as [range | e] eqn:H.
  - exists (count range). rewrite (bundleStep_range_fulfilled E c fps range H).
    reflexivity.
  - exists 0%nat. rewrite (bundleStep_range_rejected E c fps e H). reflexivity.
Qed.

Lemma bundleStep_fulfilled (c : Closure) (fps : list FilePair)
    (r : UploadGeneratorResult) :
  outcome (snd (bundleStep E c fps)) = Fulfilled r ->
  exists range,
    outcome (getBundleRange E fps) = Fulfilled range /\
    fst (bundleStep E c fps) = drop (count range) fps /\
    cacheKeys r = map key (take (count range) fps).
Proof.
  destruct (outcome (getBundleRange E fps)) as [range | e] eqn:H.
  - rewrite (bundleStep_range_fulfilled E c fps range H). cbn [fst snd outcome].
    intros Hr. exists range. repeat split.
    apply (processBundle_fulfilled E c fps range r Hr).
  - rewrite (bundleStep_range_rejected E c fps e H). discriminate.
Qed.

Lemma next_Suspended_yield (c : Closure) (fps : list FilePair)
    (g : Generator) (p : M UploadGeneratorResult) :
  next E (Suspended c fps) = (g, Yield p) ->
  fps <> [] /\ g = Suspended c (fst (bundleStep E c fps)) /\
  p = snd (bundleStep E c fps).
Proof.
  destruct fps as [| fp rest]; [discriminate |].
  rewrite next_Suspended_cons. intros [= <- <-]. repeat split. discriminate.
Qed.

(** A fulfilled bundle: the range that was computed, the pairs taken off the
    array and the keys reported. *)
Lemma next_Suspended_fulfilled (c : Closure) (fps : list FilePair)
    (g : Generator) (p : M UploadGeneratorResult) (r : UploadGeneratorResult) :
  next E (Suspended c fps) = (g, Yield p) ->
  outcome p = Fulfilled r ->
  exists range,
    outcome (getBundleRange E fps) = Fulfilled range /\
    (1 <= count range <= length fps)%nat /\
    g = Suspended c (drop (count range) fps) /\
    cacheKeys r = map key (take (count range) fps).
Proof.
  intros Hn Hr. apply next_Suspended_yield in Hn as (Hne & -> & ->).
  apply bundleStep_fulfilled in Hr as (range & Hrange & Hfst & Hk).
  exists range. rewrite Hfst.
  destruct (getBundleRange_loop_fulfilled E fps 0 0%nat range)
    as ((_ & Hle) & _ & Hge); [reflexivity | exact Hrange |].
  repeat split; try assumption. exact (Hge Hne).
Qed.

(** The array of pending pairs only loses leading pairs. *)
Lemma after_Suspended (c : Closure) (n : nat) :
  forall fps,
    after E n (Suspended c fps) = Finished \/
    exists k, after E n (Suspended c fps) = Suspended c (drop k fps).
Proof.
  induction n as [| n IH]; intros fps.
  - right. exists 0%nat. reflexivity.
  - change (after E (S n) (Suspended c fps))
      with (fst (next E (after E n (Suspended c fps)))).
    destruct (IH fps) as [-> | [k ->]]; [left; reflexivity |].
    destruct (drop k fps) as [| fp rest] eqn:Hd; [left; reflexivity |].
    right. rewrite next_Suspended_cons. cbn [fst].
    destruct (bundleStep_pending c (fp :: rest)) as [j ->].
    exists (k + j)%nat. rewrite <- Hd, drop_drop. reflexivity.
Qed.

(** Whatever a run reports is, in order, among the keys of the pending pairs. *)
Lemma run_reports_pending (c : Closure) (fuel : nat) :
  forall fps,
    reportedKeys (fulfilledResults (fst (run E fuel (Suspended c fps))))
      `sublist_of` map key fps.
Proof.
  induction fuel as [| fuel IH]; intros fps; [apply sublist_nil_l |].
  destruct fps as [| fp rest]; [apply sublist_nil_l |].
  cbn [run]. rewrite next_Suspended_cons.
  specialize (IH (fst (bundleStep E c (fp :: rest)))).
  destruct (run E fuel (Suspended c (fst (bundleStep E c (fp :: rest)))))
    as [ps e]. cbn [fst] in *.
  destruct (outcome (snd (bundleStep E c (fp :: rest)))) as [r | err] eqn:Ho.
  - rewrite (fulfilledResults_cons_fulfilled _ _ _ Ho).
    apply bundleStep_fulfilled in Ho as (range & _ & Hfst & Hk).
    rewrite Hfst in IH. unfold reportedKeys in *.
    cbn [fmap list_fmap concat]. rewrite Hk.
    replace (map key (fp :: rest))
      with (map key (take (count range) (fp :: rest))
            ++ map key (drop (count range) (fp :: rest)))
      by (rewrite <- map_app, take_drop; reflexivity).
    apply sublist_app; [reflexivity | exact IH].
  - rewrite (fulfilledResults_cons_rejected _ _ _ Ho).
    destruct (bundleStep_pending c (fp :: rest)) as [k Hk]. rewrite Hk in IH.
    etransitivity; [exact IH |]. apply (fmap_sublist key), sublist_drop.
Qed.

(** A run in which every promise is fulfilled ends, and reports every key. *)
Lemma run_Suspended_all_fulfilled (c : Closure) (fuel : nat) :
  forall fps ps e,
    (length fps < fuel)%nat ->
    run E fuel (Suspended c fps) = (ps, e) ->
    Forall isFulfilled ps ->
    e = RunDone /\ reportedKeys (fulfilledResults ps) = map key fps.
Proof.
  induction fuel as [| fuel IH]; intros fps ps e Hlen Hrun Hall; [lia |].
  destruct fps as [| fp rest].
  - cbn in Hrun. injection Hrun as <- <-. split; reflexivity.
  - cbn [run] in Hrun.
    destruct (next E (Suspended c (fp :: rest))) as [g [p | |]] eqn:Hn;
      try (rewrite next_Suspended_cons in Hn; discriminate).
    destruct (run E fuel g) as [ps' e'] eqn:Hrun'.
    injection Hrun as <- <-.
    apply Forall_cons in Hall as [[r Hr] Hall].
    destruct (next_Suspended_fulfilled _ _ _ _ _ Hn Hr)
      as (range & _ & Hc & -> & Hk).
    assert (length (drop (count range) (fp :: rest)) < fuel)%nat as Hlen'
      by (rewrite length_drop; lia).
    destruct (IH _ _ _ Hlen' Hrun' Hall) as [-> Hkeys].
    split; [reflexivity |].
    rewrite (fulfilledResults_cons_fulfilled _ _ _ Hr). unfold reportedKeys in *.
    cbn [fmap list_fmap concat]. rewrite Hkeys, Hk, <- map_app, take_drop.
    reflexivity.
Qed.

Lemma prologue_filePairs
    (storage : StorageType) (dirname : string) (assets : list AssetKey)
    (jwk : option string) (wkp : option Keypair)
    (c : Closure) (fps : list FilePair) :
  prologue E storage dirname assets jwk wkp = inr (c, fps) ->
  map key fps = map index assets /\ length fps = length assets.
Proof.
  unfold prologue.
  destruct (StorageType_eqb storage ArweaveSol
            && negb (bool_decide (is_Some wkp))); [discriminate |].
  destruct (StorageType_eqb storage ArweaveBundle); [discriminate |].
  destruct (if StorageType_eqb storage ArweaveSol then _ else _) as [e | sg];
    [discriminate |].
  destruct (newSigner E sg); [| discriminate].
  intros [= <- <-]. rewrite length_map. split; [| reflexivity].
  rewrite map_map. reflexivity.
Qed.

End GeneratorLemmas.

Lemma getBundleRange_loop_no_submission (E : Env) (fps : list FilePair) :
  forall total n, noSubmission (trace (getBundleRange_loop E fps total n)) = true.
Proof.
  induction fps as [| fp rest IH]; intros total n; [reflexivity |].
  cbn [getBundleRange_loop]. rewrite trace_bind, filePairSize_unfold.
  destruct (stat E (image fp)) as [a |]; [| reflexivity].
  destruct (stat E (manifest fp)) as [b |]; [| reflexivity].
  cbn [outcome trace fst snd]. unfold noSubmission. rewrite forallb_app.
  apply andb_true_intro. split; [reflexivity |].
  destruct (_ >=? _); [destruct (n =? 0)%nat; reflexivity | apply IH].
Qed.


(** ** Claims on the generator *)

Section GeneratorClaims.

Variable E : Env.

(** C4, as the code has it. With the SOL storage and no wallet keypair the
    first resumption throws the keypair error. With the AR bundle storage it
    throws the JWK error whether or not a JWK was passed: the test of the
    second check has no part on [jwk]. *)
Theorem prologue_checks
    (dirname : string) (assets : list AssetKey) (jwk : option string)
    (wkp : option Keypair) :
  next E (makeArweaveBundleUploadGenerator ArweaveSol dirname assets jwk None)
    = (Finished, Throw ErrNeedKeypair) /\
  next E (makeArweaveBundleUploadGenerator ArweaveBundle dirname assets jwk wkp)
    = (Finished, Throw ErrNeedJWK).
Proof. split; reflexivity. Qed.

(** C5. In every run of the generator in which nothing fails (no throw, no
    rejected promise), the caller's loop ends within [length assets + 2]
    resumptions, the keys of the yielded results, concatenated in yield
    order, are the keys of the assets in their order, and the lengths of the
    [cacheKeys] arrays add up to the number of assets. *)
Theorem run_reports_every_key
    (storage : StorageType) (dirname : string) (assets : list AssetKey)
    (jwk : option string) (wkp : option Keypair)
    (fuel : nat) (ps : list (M UploadGeneratorResult)) (e : RunEnd) :
  (length assets + 2 <= fuel)%nat ->
  run E fuel (makeArweaveBundleUploadGenerator storage dirname assets jwk wkp)
    = (ps, e) ->
  Forall isFulfilled ps ->
  (forall err, e <> RunThrew err) ->
  e = RunDone /\
  reportedKeys (fulfilledResults ps) = map index assets /\
  reportedCount (fulfilledResults ps) = length assets.
Proof.
  intros Hfuel Hrun Hall Hthrew.
  destruct fuel as [| fuel]; [lia |].
  cbn [run next makeArweaveBundleUploadGenerator] in Hrun.
  destruct (prologue E storage dirname assets jwk wkp) as [err | [c fps]] eqn:Hp.
  - injection Hrun as <- <-. destruct (Hthrew err). reflexivity.
  - destruct (prologue_filePairs E _ _ _ _ _ _ _ Hp) as [Hkeys Hlen].
    destruct (run E fuel (Suspended c fps)) as [ps' e'] eqn:Hrun'.
    injection Hrun as <- <-.
    apply Forall_cons in Hall as [_ Hall].
    destruct (run_Suspended_all_fulfilled E c fuel fps ps' e'
                ltac:(lia) Hrun' Hall) as [-> Hk].
    assert (reportedKeys (fulfilledResults (ret emptyResult :: ps'))
            = map index assets) as Hall_keys.
    { rewrite (fulfilledResults_cons_fulfilled (ret emptyResult) ps'
                 emptyResult eq_refl).
      unfold reportedKeys in *. cbn [fmap list_fmap concat emptyResult cacheKeys
                                     app].
      rewrite Hk. exact Hkeys. }
    repeat split; [exact Hall_keys |].
    rewrite reportedCount_length, Hall_keys. apply length_map.
Qed.

(** C6. A generator suspended at a [yield] answers [done] at the next
    resumption if and only if no pair is pending, and yields otherwise; and
    when the yielded bundle is fulfilled, the pending pairs are the old ones
    without their first [count], where [count] >= 1 is what [getBundleRange]
    answered, and the keys reported are those of the pairs taken off. *)
Theorem next_Suspended_shrinks (c : Closure) (fps : list FilePair) :
  (snd (next E (Suspended c fps)) = Done <-> fps = []) /\
  (fps <> [] -> exists g p, next E (Suspended c fps) = (g, Yield p)) /\
  (forall g p r,
     next E (Suspended c fps) = (g, Yield p) ->
     outcome p = Fulfilled r ->
     exists range,
       outcome (getBundleRange E fps) = Fulfilled range /\
       (1 <= count range)%nat /\
       g = Suspended c (drop (count range) fps) /\
       (length (drop (count range) fps) + count range = length fps)%nat /\
       take (count range) fps ++ drop (count range) fps = fps /\
       cacheKeys r = map key (take (count range) fps)).
Proof.
  split; [| split].
  - destruct fps as [| fp rest]; [split; reflexivity |].
    rewrite next_Suspended_cons. split; discriminate.
  - intros Hne. destruct fps as [| fp rest]; [congruence |].
    rewrite next_Suspended_cons. eauto.
  - intros g p r Hn Hr.
    destruct (next_Suspended_fulfilled E c fps g p r Hn Hr)
      as (range & Hrange & Hc & -> & Hk).
    exists range. rewrite length_drop, take_drop.
    repeat split; try assumption; lia.
Qed.

(** C7, as the code has it. The link pushed for a pair is made from the id of
    the pair's manifest data item, the second of its three data items, not
    from the id of its path manifest data item, the one signed last; in the
    small world the two links differ. *)
Theorem arweavePathManifestLink_of_manifest_item :
  (forall c acc fp,
     match outcome (processBundleFilePair E c acc fp) with
     | Fulfilled acc' =>
         exists imageDataItem manifestDataItem arweavePathManifestDataItem,
           acc_dataItems acc' =
             acc_dataItems acc
             ++ [imageDataItem; manifestDataItem; arweavePathManifestDataItem] /\
           tags manifestDataItem = manifestTags /\
           tags arweavePathManifestDataItem = arweavePathManifestTags /\
           acc_arweavePathManifestLinks acc' =
             acc_arweavePathManifestLinks acc
             ++ [arweaveLink (id manifestDataItem)]
     | Rejected _ => True
     end) /\
  (exists acc' imageDataItem manifestDataItem arweavePathManifestDataItem,
     outcome (processBundleFilePair (World.env World.files) World.closureSol
                emptyAcc (World.pair "0")) = Fulfilled acc' /\
     acc_dataItems acc' =
       [imageDataItem; manifestDataItem; arweavePathManifestDataItem] /\
     acc_arweavePathManifestLinks acc' = [arweaveLink (id manifestDataItem)] /\
     arweaveLink (id manifestDataItem)
       <> arweaveLink (id arweavePathManifestDataItem)).
Proof.
  split.
  - intros c acc fp.
    destruct (outcome (processBundleFilePair E c acc fp)) as [acc' |] eqn:H;
      [| exact I].
    apply processBundleFilePair_fulfilled in H.
    destruct H as (bytes & i1 & text & m & i2 & i3 & _ & _ & _ & _ & _ & _ & ->).
    eexists _, _, _. cbn [acc_dataItems acc_arweavePathManifestLinks].
    repeat split.
  - eexists _, _, _, _. split; [vm_compute; reflexivity |].
    cbn [acc_dataItems acc_arweavePathManifestLinks id].
    repeat split. intros H. apply String.eqb_eq in H.
    vm_compute in H. discriminate H.
Qed.


(** C9, amended. Whenever the first resumption does not throw, it yields a
    promise fulfilled with empty [cacheKeys], [arweavePathManifestLinks] and
    [updatedManifests], with no call made on the file system, the signer or
    the network; and for an empty list of assets the second resumption
    answers [done]. *)
Theorem first_resumption_yields_empty
    (storage : StorageType) (dirname : string) (assets : list AssetKey)
    (jwk : option string) (wkp : option Keypair) :
  (forall e,
     snd (next E (makeArweaveBundleUploadGenerator storage dirname assets jwk wkp))
     <> Throw e) ->
  exists c fps,
    next E (makeArweaveBundleUploadGenerator storage dirname assets jwk wkp)
      = (Suspended c fps, Yield ([], Fulfilled emptyResult)) /\
    cacheKeys emptyResult = [] /\
    arweavePathManifestLinks emptyResult = [] /\
    updatedManifests emptyResult = [] /\
    length fps = length assets /\
    (assets = [] -> next E (Suspended c fps) = (Finished, Done)).
Proof.
  intros Hno. cbn [next makeArweaveBundleUploadGenerator] in *.
  destruct (prologue E storage dirname assets jwk wkp) as [err | [c fps]] eqn:Hp.
  - destruct (Hno err). reflexivity.
  - destruct (prologue_filePairs E _ _ _ _ _ _ _ Hp) as [_ Hlen].
    exists c, fps. repeat split; [exact Hlen |].
    intros ->. destruct fps; [reflexivity | discriminate].
Qed.

(** C10. Once the range of a bundle is computed, its pairs are taken off the
    array of pending pairs before any of them is processed; when the promise
    of that bundle is then rejected, the generator is suspended with the
    pairs after the bundle, every later state of it has a suffix of those as
    its pending pairs, and the keys reported by any later result are among
    the keys of those pairs, in order. *)
Theorem failed_bundle_is_dropped
    (c : Closure) (fps : list FilePair) (range : BundleRange)
    (g : Generator) (p : M UploadGeneratorResult) (e : Error) :
  outcome (getBundleRange E fps) = Fulfilled range ->
  next E (Suspended c fps) = (g, Yield p) ->
  outcome p = Rejected e ->
  fst (processBundle E c fps range) = drop (count range) fps /\
  g = Suspended c (drop (count range) fps) /\
  (forall n, after E n g = Finished \/
             exists k, after E n g
                       = Suspended c (drop k (drop (count range) fps))) /\
  (forall fuel,
     reportedKeys (fulfilledResults (fst (run E fuel g)))
       `sublist_of` map key (drop (count range) fps)).
Proof.
  intros Hrange Hn _. apply next_Suspended_yield in Hn as (_ & -> & _).
  rewrite (bundleStep_range_fulfilled E c fps range Hrange). cbn [fst].
  repeat split.
  - intros n. apply after_Suspended.
  - intros fuel. apply run_reports_pending.
Qed.

End GeneratorClaims.

(** ** The claims in the small world *)

Lemma run_reports_every_key_witness :
  exists ps,
    run (World.env World.files) 5
      (makeArweaveBundleUploadGenerator ArweaveSol "a"
         [World.asset "0"; World.asset "1"; World.asset "2"] None
         (Some World.kp)) = (ps, RunDone) /\
    length ps = 3%nat /\
    reportedKeys (fulfilledResults ps) = ["0"; "1"; "2"] /\
    reportedCount (fulfilledResults ps) = 3%nat.
Proof.
  eexists. split; [vm_compute; reflexivity |]. split; [reflexivity |].
  refine (proj2 (run_reports_every_key (World.env World.files) ArweaveSol "a"
                   [World.asset "0"; World.asset "1"; World.asset "2"] None
                   (Some World.kp) 5 _ RunDone _ _ _ _)).
  - cbn [length]. lia.
  - vm_compute. reflexivity.
  - repeat constructor; eexists; vm_compute; reflexivity.
  - discriminate.
Defined.

Lemma next_Suspended_shrinks_witness :
  exists p r,
    next (World.env World.files)
      (Suspended World.closureSol
         [World.pair "0"; World.pair "1"; World.pair "2"])
      = (Suspended World.closureSol [World.pair "2"], Yield p) /\
    outcome p = Fulfilled r /\ cacheKeys r = ["0"; "1"].
Proof.
  pose proof (next_Suspended_shrinks (World.env World.files) World.closureSol
                [World.pair "0"; World.pair "1"; World.pair "2"]) as (_ & Hy & H).
  destruct (Hy ltac:(discriminate)) as (g & p & Hn).
  revert H Hn. vm_compute (next _ _). intros H [= <- <-].
  eexists _, _. split; [reflexivity |]. split; reflexivity.
Defined.



(** C9: with the SOL storage and no keypair, the first resumption throws. *)
Lemma first_resumption_throws_without_keypair :
  ~ exists g p,
      next (World.env World.files)
        (makeArweaveBundleUploadGenerator ArweaveSol "a" [] None None)
      = (g, Yield p).
Proof. intros (g & p & H). vm_compute in H. discriminate H. Defined.

Lemma first_resumption_yields_empty_witness :
  exists c,
    next (World.env World.files)
      (makeArweaveBundleUploadGenerator ArweaveSol "a" [] None (Some World.kp))
      = (Suspended c [], Yield ([], Fulfilled emptyResult)) /\
    next (World.env World.files) (Suspended c []) = (Finished, Done).
Proof.
  destruct (first_resumption_yields_empty (World.env World.files) ArweaveSol
              "a" [] None (Some World.kp))
    as (c & fps & Hn & _ & _ & _ & Hlen & Hdone).
  - intros e. vm_compute. discriminate.
  - destruct fps; [| discriminate Hlen].
    exists c. split; [exact Hn | exact (Hdone eq_refl)].
Defined.

Lemma failed_bundle_is_dropped_witness :
  exists p,
    next (World.env World.files)
      (Suspended World.closureSol
         [World.pair "4"; World.pair "2"; World.pair "0"])
      = (Suspended World.closureSol [World.pair "0"], Yield p) /\
    forall fuel,
      reportedKeys
        (fulfilledResults
           (fst (run (World.env World.files) fuel
                   (Suspended World.closureSol [World.pair "0"]))))
        `sublist_of` ["0"].
Proof.
  eexists. split; [vm_compute; reflexivity |].
  refine (proj2 (proj2 (proj2
    (failed_bundle_is_dropped (World.env World.files) World.closureSol
       [World.pair "4"; World.pair "2"; World.pair "0"]
       {| count := 2; size := 42992262 |}
       (Suspended World.closureSol [World.pair "0"]) _
       (ErrInvalidManifest "a/4.json") _ _ _)))).
  - vm_compute. reflexivity.
  - vm_compute. reflexivity.
  - vm_compute. reflexivity.
Defined.

(** * Further properties of the code *)

(** ** Files that cannot be measured, and a range that is rejected *)

Section RangeFailures.

Variable E : Env.

Lemma getBundleRange_loop_stat_rejects (pre : list FilePair) (sizes : list Z) :
  Forall2 (measured E) pre sizes ->
  forall (total : Z) (n : nat) (fp : FilePair) (post : list FilePair) (f : string),
    (forall j, (1 <= j <= length sizes)%nat ->
               total + sumZ (take j sizes) < BUNDLE_SIZE_BYTE_LIMIT) ->
    firstUnmeasured E fp = Some f ->
    getBundleRange_loop E (pre ++ fp :: post) total n =
      (statEvents pre ++ statEventsOf E fp, Rejected (ErrStat f)).
Proof.
  induction 1 as [| p s pre srest Hm Hrest IH]; intros total n fp post f Hfit Hf.
  - cbn [app getBundleRange_loop statEvents]. rewrite filePairSize_unfold.
    unfold firstUnmeasured, statEventsOf in *.
    destruct (stat E (image fp)) as [a |]; [| injection Hf as <-; reflexivity].
    destruct (stat E (manifest fp)) as [b |]; [discriminate |].
    injection Hf as <-. reflexivity.
  - cbn [app]. rewrite (getBundleRange_loop_cons E p _ total n s Hm).
    unfold bind.
    destruct (Z.geb_spec (total + s) BUNDLE_SIZE_BYTE_LIMIT) as [Hge | Hlt].
    + specialize (Hfit 1%nat ltac:(cbn [length]; lia)).
      cbn [take sumZ foldr] in Hfit. rewrite take_0 in Hfit. simpl in Hfit. lia.
    + rewrite (IH (total + s) (S n) fp post f); [reflexivity | | exact Hf].
      intros j Hj. specialize (Hfit (S j) ltac:(cbn [length]; lia)).
      cbn [take sumZ foldr] in Hfit. fold (sumZ (take j srest)) in Hfit. lia.
Qed.

(** X1. When the loop of [getBundleRange] reaches a pair one of whose files
    [stat] rejects (all pairs before it were measured and fit below the
    limit together), the range is rejected with that file's [stat] error;
    the files measured are those of the pairs before, then the image of that
    pair and, if the image was measured, its manifest; nothing after. *)
Theorem getBundleRange_stat_rejects
    (pre : list FilePair) (sizes : list Z) (fp : FilePair)
    (post : list FilePair) (f : string) :
  Forall2 (measured E) pre sizes ->
  (forall j, (1 <= j <= length sizes)%nat ->
             sumZ (take j sizes) < BUNDLE_SIZE_BYTE_LIMIT) ->
  firstUnmeasured E fp = Some f ->
  getBundleRange E (pre ++ fp :: post) =
    (statEvents pre ++ statEventsOf E fp, Rejected (ErrStat f)).
Proof.
  intros Hm Hfit Hf. unfold getBundleRange.
  apply (getBundleRange_loop_stat_rejects pre sizes Hm); [| exact Hf].
  intros j Hj. specialize (Hfit j Hj). lia.
Qed.

(** X2. When the range of the pending pairs is rejected (a first pair that is
    too big, or a file that cannot be measured), no pair is taken off the
    array: every further resumption yields the same rejected promise and the
    generator never answers [done]. *)
Theorem range_rejected_never_done
    (c : Closure) (fps : list FilePair) (e : Error) :
  fps <> [] ->
  outcome (getBundleRange E fps) = Rejected e ->
  forall fuel,
    run E fuel (Suspended c fps) =
      (replicate fuel (trace (getBundleRange E fps), Rejected e),
       RunOutOfFuel (Suspended c fps)).
Proof.
  intros Hne Hrej fuel. induction fuel as [| fuel IH]; [reflexivity |].
  destruct fps as [| fp rest]; [congruence |].
  cbn [run]. rewrite next_Suspended_cons,
    (bundleStep_range_rejected E c _ e Hrej). cbn [fst snd].
  rewrite IH. reflexivity.
Qed.

End RangeFailures.

Lemma getBundleRange_stat_rejects_witness :
  getBundleRange (World.env World.files)
    [World.pair "0"; World.pair "9"; World.pair "1"] =
    ([EvStat "a/0.png"; EvStat "a/0.json"; EvStat "a/9.png"],
     Rejected (ErrStat "a/9.png")).
Proof.
  refine (getBundleRange_stat_rejects (World.env World.files)
            [World.pair "0"] [10486083] (World.pair "9") [World.pair "1"]
            "a/9.png" _ _ _).
  - repeat constructor. eapply measured_world; vm_compute; reflexivity.
  - intros [| [| j]] Hj; cbn [length] in Hj; try lia. vm_compute. reflexivity.
  - vm_compute. reflexivity.
Defined.

Lemma range_rejected_never_done_witness :
  run (World.env World.files) 3
    (Suspended World.closureSol [World.pair "3"; World.pair "0"]) =
    (replicate 3 ([EvStat "a/3.png"; EvStat "a/3.json"],
                  Rejected (ErrTooBig "3" 62914883)),
     RunOutOfFuel (Suspended World.closureSol [World.pair "3"; World.pair "0"])).
Proof.
  exact (range_rejected_never_done (World.env World.files) World.closureSol
           [World.pair "3"; World.pair "0"] (ErrTooBig "3" 62914883)
           ltac:(discriminate) ltac:(vm_compute; reflexivity) 3%nat).
Defined.

(** ** What a bundle that went through is made of *)

Section BundleContents.

Variable E : Env.
Variable c : Closure.

Lemma Processed_lengths (l : list FilePair) (ds : list DataItem)
    (ls : list string) (ms : list Manifest) :
  Processed E c l ds ls ms ->
  length ds = (3 * length l)%nat /\ length ls = length l /\
  length ms = length l.
Proof.
  induction 1 as [| fp l img man pm m ds ls ms _ _ (IHd & IHl & IHm)];
    [repeat split |].
  cbn [length]. repeat split; lia.
Qed.

Lemma Processed_tags (l : list FilePair) (ds : list DataItem)
    (ls : list string) (ms : list Manifest) :
  Processed E c l ds ls ms ->
  Forall (fun d => exists v,
            tags d = BASE_TAGS ++ [ {| tag_name := "Content-Type";
                                       tag_value := v |} ]) ds.
Proof.
  induction 1 as [| fp l img man pm m ds ls ms Hf _ IH]; [constructor |].
  destruct Hf as (_ & Hi & _ & _ & _ & _ & Hm & _ & _ & Hp & _).
  repeat (constructor; [eexists; eassumption |]). exact IH.
Qed.

Lemma reducePairs_processed (l : list FilePair) :
  forall accP acc',
    outcome (reducePairs E c accP l) = Fulfilled acc' ->
    exists acc0 ds ls ms,
      outcome accP = Fulfilled acc0 /\
      acc_dataItems acc' = acc_dataItems acc0 ++ ds /\
      acc_arweavePathManifestLinks acc' = acc_arweavePathManifestLinks acc0 ++ ls /\
      acc_updatedManifests acc' = acc_updatedManifests acc0 ++ ms /\
      Processed E c l ds ls ms.
Proof.
  induction l as [| fp l IH]; intros accP acc' H.
  - exists acc', [], [], []. cbn in H. rewrite !app_nil_r.
    repeat split; [exact H | constructor].
  - rewrite reducePairs_cons in H. apply IH in H.
    destruct H as (acc1 & ds & ls & ms & H1 & Hd & Hl & Hm & HP).
    rewrite outcome_bind in H1.
    destruct (outcome accP) as [acc0 | e]; [| discriminate].
    apply processBundleFilePair_fulfilled in H1.
    destruct H1 as (bytes & i1 & text & m & i2 & i3
                    & Hb & Hs1 & Ht & Hp & Hs2 & Hs3 & ->).
    cbn [acc_dataItems acc_arweavePathManifestLinks acc_updatedManifests]
      in Hd, Hl, Hm.
    eexists acc0, (_ :: _ :: _ :: ds), (_ :: ls), (_ :: ms).
    split; [reflexivity |].
    rewrite Hd, Hl, Hm, <- !app_assoc. repeat split.
    apply (Processed_cons E c fp l
             (withId (imageItem E fp bytes) i1)
             (withId (manifestItem E (updatedManifest E fp i1 m)) i2)
             (withId (pathManifestItem E fp i1 i2) i3)
             (updatedManifest E fp i1 m)); [| exact HP].
    repeat split; assumption.
Qed.

Lemma processBundleFilePairs_contents_aux
    (l : list FilePair) (acc : ProcessedBundleFilePairs) :
  outcome (processBundleFilePairs E c l) = Fulfilled acc ->
  Processed E c l (acc_dataItems acc) (acc_arweavePathManifestLinks acc)
    (acc_updatedManifests acc).
Proof.
  intros H.
  destruct (reducePairs_processed l (ret emptyAcc) acc H)
    as (acc0 & ds & ls & ms & [= <-] & Hd & Hl & Hm & HP).
  cbn [emptyAcc acc_dataItems acc_arweavePathManifestLinks
       acc_updatedManifests app] in *.
  rewrite Hd, Hl, Hm. exact HP.
Qed.

(** X3. When the pairs of a bundle all go through, the accumulator holds the
    keys of the pairs in order and, per pair and in the same order, three
    signed data items (image, manifest, path manifest), one link and one
    updated manifest: the image item holds the image file, the updated
    manifest and its single [files] entry point at the image item's id, the
    manifest item holds the updated manifest, and the path manifest item
    names the ids of the image and manifest items. *)
Theorem processBundleFilePairs_contents
    (l : list FilePair) (acc : ProcessedBundleFilePairs) :
  outcome (processBundleFilePairs E c l) = Fulfilled acc ->
  acc_cacheKeys acc = map key l /\
  Processed E c l (acc_dataItems acc) (acc_arweavePathManifestLinks acc)
    (acc_updatedManifests acc) /\
  length (acc_dataItems acc) = (3 * length l)%nat.
Proof.
  intros H.
  destruct (reducePairs_keys E c l (ret emptyAcc) acc H) as (a0 & [= <-] & Hk).
  pose proof (processBundleFilePairs_contents_aux l acc H) as HP.
  repeat split; [exact Hk | exact HP |].
  apply (Processed_lengths _ _ _ _ HP).
Qed.

(** X4. Every data item made for a bundle carries the base tag (App-Name,
    Metaplex Candy Machine) first, followed by exactly one Content-Type
    tag. *)
Theorem processBundleFilePairs_tags
    (l : list FilePair) (acc : ProcessedBundleFilePairs) :
  outcome (processBundleFilePairs E c l) = Fulfilled acc ->
  Forall (fun d => exists v,
            tags d = [ {| tag_name := "App-Name";
                          tag_value := "Metaplex Candy Machine" |};
                       {| tag_name := "Content-Type"; tag_value := v |} ])
    (acc_dataItems acc).
Proof.
  intros H. pose proof (processBundleFilePairs_contents_aux l acc H) as HP.
  exact (Processed_tags _ _ _ _ HP).
Qed.

End BundleContents.

(** ** Handing a bundle to the network *)

Section Submission.

Variable E : Env.
Variable c : Closure.

Lemma uploadEach_all (ds : list DataItem) :
  allUploaded E ds -> uploadEach E ds = (EvUpload <$> ds, Fulfilled tt).
Proof.
  induction 1 as [| d ds [tx Hd] _ IH]; [reflexivity |].
  cbn [uploadEach]. unfold call, bind. rewrite Hd, IH. reflexivity.
Qed.

Lemma uploadEach_fulfilled (ds : list DataItem) (u : unit) :
  outcome (uploadEach E ds) = Fulfilled u -> allUploaded E ds.
Proof.
  induction ds as [| d ds IH]; intros H; [constructor |].
  cbn [uploadEach] in H. rewrite outcome_bind, outcome_call in H.
  destruct (upload E d) as [tx |] eqn:Hd; [| discriminate].
  constructor; [eauto | exact (IH H)].
Qed.

Lemma uploadEach_refused (pre post : list DataItem) (d : DataItem) :
  allUploaded E pre -> upload E d = None ->
  uploadEach E (pre ++ d :: post) =
    ((EvUpload <$> pre) ++ [EvUpload d], Rejected (ErrUpload d)).
Proof.
  intros Hpre Hd. induction Hpre as [| d0 pre [tx Hd0] _ IH].
  - cbn [app uploadEach fmap list_fmap]. unfold call, bind. rewrite Hd.
    reflexivity.
  - cbn [app uploadEach]. unfold call, bind at 1. rewrite Hd0, IH.
    reflexivity.
Qed.

Lemma bind_ret_l {A B} (a : A) (f : A -> M B) : bind (ret a) f = f a.
Proof. unfold bind, ret. destruct (f a). reflexivity. Qed.

Lemma uploadSol_unfold (kp : Keypair) (ds : list DataItem) :
  storageType c = ArweaveSol -> walletKeyPair c = Some kp ->
  uploadSol E c ds =
    (let* cost := call (EvStorageCost (totalBytes E ds))
                    (getStorageCost E (totalBytes E ds))
                    (ErrStorageCost (totalBytes E ds)) in
     let* _ := call (EvFund cost) (fund E cost) (ErrFund cost) in
     uploadEach E ds).
Proof.
  intros Hs Hk. unfold uploadSol. rewrite Hs, Hk. cbn [StorageType_eqb].
  rewrite bind_ret_l. reflexivity.
Qed.

Lemma uploadSol_fulfilled_uploads (kp : Keypair) (ds : list DataItem) :
  storageType c = ArweaveSol -> walletKeyPair c = Some kp ->
  outcome (uploadSol E c ds) = Fulfilled tt ->
  List.filter isUpload (trace (uploadSol E c ds)) = EvUpload <$> ds.
Proof.
  intros Hs Hk. rewrite (uploadSol_unfold kp ds Hs Hk).
  rewrite outcome_bind, outcome_call, trace_bind, outcome_call, trace_call.
  destruct (getStorageCost E (totalBytes E ds)) as [cost |]; [| discriminate].
  rewrite outcome_bind, outcome_call, trace_bind, outcome_call, trace_call.
  destruct (fund E cost) as [[] |]; [| discriminate].
  intros H. rewrite (uploadEach_all ds (uploadEach_fulfilled ds tt H)).
  cbn [trace fst app List.filter isUpload].
  induction ds as [| d ds' IH] in |- *; [reflexivity |].
  cbn [fmap list_fmap List.filter isUpload]. f_equal. exact IH.
Qed.

(** X5. With the SOL storage, a bundle is handed over in this order: the cost
    of the total length of its data items is asked for, the account is
    funded with that cost, and every data item is uploaded once, in the
    order built. It is fulfilled exactly when the cost is answered, the
    funding goes through and every data item is taken. *)
Theorem uploadSol_fulfilled (kp : Keypair) (ds : list DataItem) :
  storageType c = ArweaveSol -> walletKeyPair c = Some kp ->
  (outcome (uploadSol E c ds) = Fulfilled tt <->
   exists cost, getStorageCost E (totalBytes E ds) = Some cost /\
                fund E cost = Some tt /\ allUploaded E ds) /\
  (forall cost, getStorageCost E (totalBytes E ds) = Some cost ->
     outcome (uploadSol E c ds) = Fulfilled tt ->
     trace (uploadSol E c ds) =
       [EvStorageCost (totalBytes E ds); EvFund cost] ++ (EvUpload <$> ds)).
Proof.
  intros Hs Hk. rewrite (uploadSol_unfold kp ds Hs Hk). split; [split |].
  - rewrite outcome_bind, outcome_call.
    destruct (getStorageCost E (totalBytes E ds)) as [cost |]; [| discriminate].
    rewrite outcome_bind, outcome_call.
    destruct (fund E cost) as [[] |] eqn:Hf; [| discriminate].
    intros H. exists cost.
    split; [reflexivity | split; [exact Hf | exact (uploadEach_fulfilled ds tt H)]].
  - intros (cost & Hc & Hf & Hall). unfold call, bind.
    rewrite Hc, Hf, (uploadEach_all ds Hall). reflexivity.
  - intros cost Hc. unfold call, bind at 1. rewrite Hc. unfold bind.
    destruct (fund E cost) as [[] |]; [| discriminate].
    destruct (uploadEach E ds) as [t [[] | e]] eqn:Hu; [| discriminate].
    intros _. cbn [trace fst app]. f_equal. f_equal.
    rewrite (uploadEach_all ds (uploadEach_fulfilled ds tt
                                  ltac:(rewrite Hu; reflexivity))) in Hu.
    congruence.
Qed.

(** X6. With the SOL storage, when the network refuses a data item of a
    bundle whose pairs all went through, the data items built before it have
    been uploaded, the ones after it are not offered, the promise of the
    bundle is rejected with the upload error of that item, and the pairs of
    the bundle are off the array all the same. *)
Theorem upload_refused_partway
    (fps : list FilePair) (range : BundleRange) (kp : Keypair)
    (acc : ProcessedBundleFilePairs) (pre post : list DataItem)
    (d : DataItem) (cost : Z) :
  storageType c = ArweaveSol -> walletKeyPair c = Some kp ->
  outcome (processBundleFilePairs E c (take (count range) fps)) = Fulfilled acc ->
  acc_dataItems acc = pre ++ d :: post ->
  getStorageCost E (totalBytes E (acc_dataItems acc)) = Some cost ->
  fund E cost = Some tt ->
  allUploaded E pre -> upload E d = None ->
  processBundle E c fps range =
    (drop (count range) fps,
     (trace (processBundleFilePairs E c (take (count range) fps))
      ++ [EvStorageCost (totalBytes E (acc_dataItems acc)); EvFund cost]
      ++ (EvUpload <$> pre) ++ [EvUpload d],
      Rejected (ErrUpload d))).
Proof.
  intros Hs Hk Hacc Hd Hc Hf Hpre Hno.
  unfold processBundle, splice0. f_equal.
  destruct (processBundleFilePairs E c (take (count range) fps))
    as [t [a | e]]; [| discriminate].
  cbn [outcome snd] in Hacc. injection Hacc as ->. cbn [trace fst].
  unfold bind at 1. rewrite (uploadSol_unfold kp _ Hs Hk).
  unfold call at 1, bind at 2. rewrite Hc.
  unfold call at 1, bind at 2. rewrite Hf, Hd at 1.
  rewrite (uploadEach_refused pre post d Hpre Hno).
  unfold bind. cbn [app]. reflexivity.
Qed.

End Submission.

(** ** The order of the calls *)

Section Traces.

Variable E : Env.

Lemma uploadEach_submissions (ds : list DataItem) :
  forallb isSubmission (trace (uploadEach E ds)) = true.
Proof.
  induction ds as [| d ds IH]; [reflexivity |].
  cbn [uploadEach]. rewrite trace_bind, outcome_call, trace_call.
  destruct (upload E d); [| reflexivity].
  rewrite forallb_app, IH. reflexivity.
Qed.

Lemma uploadSol_submissions (c : Closure) (ds : list DataItem) :
  forallb isSubmission (trace (uploadSol E c ds)) = true.
Proof.
  unfold uploadSol. destruct (StorageType_eqb _ _); [| reflexivity].
  destruct (walletKeyPair c); [| reflexivity]. rewrite bind_ret_l.
  rewrite trace_bind, outcome_call, trace_call.
  destruct (getStorageCost E _) as [cost |]; [| reflexivity].
  rewrite forallb_app, trace_bind, outcome_call, trace_call.
  destruct (fund E cost); [| reflexivity].
  rewrite forallb_app, uploadEach_submissions. reflexivity.
Qed.

Lemma uploadBundle_submissions (c : Closure) (ds : list DataItem) :
  forallb isSubmission (trace (uploadBundle E c ds)) = true.
Proof.
  unfold uploadBundle. destruct (StorageType_eqb _ _); [| reflexivity].
  rewrite trace_bind, outcome_call, trace_call.
  destruct (postBundle E _ _); reflexivity.
Qed.

Lemma processBundleFilePairs_no_submission (c : Closure) (l : list FilePair) :
  noSubmission (trace (processBundleFilePairs E c l)) = true.
Proof. apply (reducePairs_no_submission E c l (ret emptyAcc)). reflexivity. Qed.

(** The promise of [processBundle], by the outcome of the pairs. *)
Lemma processBundle_promise (c : Closure) (fps : list FilePair)
    (range : BundleRange) :
  snd (processBundle E c fps range) =
  match outcome (processBundleFilePairs E c (take (count range) fps)) with
  | Rejected e =>
      (trace (processBundleFilePairs E c (take (count range) fps)), Rejected e)
  | Fulfilled processed =>
      let up :=
        let* _ := uploadSol E c (acc_dataItems processed) in
        let* _ := uploadBundle E c (acc_dataItems processed) in
        ret {| cacheKeys := acc_cacheKeys processed;
               arweavePathManifestLinks := acc_arweavePathManifestLinks processed;
               updatedManifests := acc_updatedManifests processed |} in
      (trace (processBundleFilePairs E c (take (count range) fps)) ++ trace up,
       outcome up)
  end.
Proof.
  unfold processBundle, splice0. cbn [snd].
  destruct (processBundleFilePairs E c (take (count range) fps))
    as [t [a | e]]; cbn [outcome trace fst snd]; [| reflexivity].
  unfold bind at 1.
  destruct (let* _ := uploadSol E c (acc_dataItems a) in _) as [t' o].
  reflexivity.
Qed.

Lemma processing_before_submission_aux
    (c : Closure) (fps : list FilePair) (range : BundleRange) :
  exists submitted,
    trace (snd (processBundle E c fps range)) =
      trace (processBundleFilePairs E c (take (count range) fps)) ++ submitted /\
    forallb isSubmission submitted = true.
Proof.
  rewrite processBundle_promise.
  destruct (outcome (processBundleFilePairs E c (take (count range) fps)))
    as [processed | e].
  - eexists. cbn [trace fst]. split; [reflexivity |].
    rewrite trace_bind.
    destruct (outcome (uploadSol E c _)); [| apply uploadSol_submissions].
    rewrite forallb_app, uploadSol_submissions, trace_bind.
    destruct (outcome (uploadBundle E c _)); [| apply uploadBundle_submissions].
    rewrite forallb_app, uploadBundle_submissions. reflexivity.
  - exists []. cbn [trace fst]. rewrite app_nil_r. split; reflexivity.
Qed.

(** X7. In the promise of a bundle, the calls that read and sign the pairs
    all come before the calls that hand anything to the network: the latter
    start only when every pair of the bundle went through, and when a pair
    fails nothing is handed over. *)
Theorem processing_before_submission
    (c : Closure) (fps : list FilePair) (range : BundleRange) :
  exists submitted,
    trace (snd (processBundle E c fps range)) =
      trace (processBundleFilePairs E c (take (count range) fps)) ++ submitted /\
    noSubmission (trace (processBundleFilePairs E c (take (count range) fps)))
      = true /\
    forallb isSubmission submitted = true /\
    (forall e,
       outcome (processBundleFilePairs E c (take (count range) fps)) = Rejected e ->
       submitted = [] /\
       outcome (snd (processBundle E c fps range)) = Rejected e).
Proof.
  rewrite processBundle_promise.
  destruct (outcome (processBundleFilePairs E c (take (count range) fps)))
    as [processed | e].
  - eexists. cbn [trace fst]. split; [reflexivity |].
    split; [apply processBundleFilePairs_no_submission |].
    split; [| discriminate].
    rewrite trace_bind.
    destruct (outcome (uploadSol E c _)); [| apply uploadSol_submissions].
    rewrite forallb_app, uploadSol_submissions, trace_bind.
    destruct (outcome (uploadBundle E c _)); [| apply uploadBundle_submissions].
    rewrite forallb_app, uploadBundle_submissions. reflexivity.
  - exists []. cbn [trace fst]. rewrite app_nil_r.
    split; [reflexivity |].
    split; [apply processBundleFilePairs_no_submission |].
    split; [reflexivity |]. intros e' [= <-]. split; reflexivity.
Qed.

End Traces.

(** ** Every promise of a run *)

Section Runs.

Variable E : Env.

Lemma prologue_closure
    (storage : StorageType) (dirname : string) (assets : list AssetKey)
    (jwk : option string) (wkp : option Keypair)
    (c : Closure) (fps : list FilePair) :
  prologue E storage dirname assets jwk wkp = inr (c, fps) ->
  storageType c = storage /\ walletKeyPair c = wkp /\ c_jwk c = jwk /\
  storage <> ArweaveBundle /\ (storage = ArweaveSol -> is_Some wkp) /\
  fps = map (fun asset : AssetKey =>
               {| key := index asset;
                  image := path_join E dirname (index asset +:+ mediaExt asset);
                  manifest := path_join E dirname (index asset +:+ ".json") |})
            assets.
Proof.
  unfold prologue.
  destruct storage, wkp as [kp |]; cbn; try discriminate;
    match goal with |- context [newSigner E ?sg] => destruct (newSigner E sg) end;
    try discriminate; intros [= <- <-]; cbn; repeat split;
    solve [discriminate | eauto].
Qed.

Lemma run_Suspended_Forall (Q : M UploadGeneratorResult -> Prop) (c : Closure) :
  (forall fps, Q (snd (bundleStep E c fps))) ->
  forall fuel fps, Forall Q (fst (run E fuel (Suspended c fps))).
Proof.
  intros HQ fuel. induction fuel as [| fuel IH]; intros fps; [constructor |].
  destruct fps as [| fp rest]; [constructor |].
  cbn [run]. rewrite next_Suspended_cons.
  specialize (IH (fst (bundleStep E c (fp :: rest)))).
  destruct (run E fuel _) as [ps e]. cbn [fst] in *.
  constructor; [apply HQ | exact IH].
Qed.

Lemma run_Created_Forall (Q : M UploadGeneratorResult -> Prop)
    (storage : StorageType) (dirname : string) (assets : list AssetKey)
    (jwk : option string) (wkp : option Keypair) :
  Q (ret emptyResult) ->
  (forall c fps0, prologue E storage dirname assets jwk wkp = inr (c, fps0) ->
                  forall fps, Q (snd (bundleStep E c fps))) ->
  forall fuel,
    Forall Q (fst (run E fuel (makeArweaveBundleUploadGenerator
                                 storage dirname assets jwk wkp))).
Proof.
  intros H0 HQ [| fuel]; [constructor |].
  cbn [run next makeArweaveBundleUploadGenerator].
  destruct (prologue E storage dirname assets jwk wkp) as [e | [c fps0]] eqn:Hp;
    [constructor |].
  pose proof (run_Suspended_Forall Q c (HQ c fps0 eq_refl) fuel fps0) as H.
  destruct (run E fuel (Suspended c fps0)) as [ps e]. cbn [fst] in *.
  constructor; assumption.
Qed.

Lemma bundleStep_promise (c : Closure) (fps : list FilePair) :
  snd (bundleStep E c fps) =
  match outcome (getBundleRange E fps) with
  | Rejected e => (trace (getBundleRange E fps), Rejected e)
  | Fulfilled range =>
      (trace (getBundleRange E fps) ++ trace (snd (processBundle E c fps range)),
       outcome (snd (processBundle E c fps range)))
  end.
Proof.
  destruct (outcome (getBundleRange E fps)) as [range | e] eqn:H.
  - rewrite (bundleStep_range_fulfilled E c fps range H). reflexivity.
  - rewrite (bundleStep_range_rejected E c fps e H). reflexivity.
Qed.

Lemma uploadBundle_skipped (c : Closure) (ds : list DataItem) :
  storageType c <> ArweaveBundle -> uploadBundle E c ds = ret tt.
Proof.
  intros H. unfold uploadBundle. destruct (storageType c); [congruence | |];
    reflexivity.
Qed.

Lemma uploadSol_skipped (c : Closure) (ds : list DataItem) :
  storageType c <> ArweaveSol -> uploadSol E c ds = ret tt.
Proof.
  intros H. unfold uploadSol. destruct (storageType c); [| congruence |];
    reflexivity.
Qed.

Lemma uploadSol_events (P : Event -> bool) (c : Closure) (ds : list DataItem) :
  (forall b, P (EvStorageCost b) = true) ->
  (forall k, P (EvFund k) = true) ->
  (forall d, P (EvUpload d) = true) ->
  forallb P (trace (uploadSol E c ds)) = true.
Proof.
  intros Hc Hf Hu. unfold uploadSol.
  destruct (StorageType_eqb _ _); [| reflexivity].
  destruct (walletKeyPair c); [| reflexivity]. rewrite bind_ret_l.
  rewrite trace_bind, outcome_call, trace_call.
  destruct (getStorageCost E _) as [cost |]; cbn [forallb]; rewrite ?Hc;
    [| reflexivity].
  rewrite forallb_app, trace_bind, outcome_call, trace_call. cbn [forallb].
  rewrite Hc. destruct (fund E cost); cbn [forallb]; rewrite ?Hf;
    [| reflexivity].
  rewrite forallb_app. cbn [forallb]. rewrite Hf. cbn [andb].
  induction ds as [| d ds IH]; [reflexivity |].
  cbn [uploadEach]. rewrite trace_bind, outcome_call, trace_call.
  destruct (upload E d); cbn [forallb app]; rewrite Hu; [| reflexivity].
  exact IH.
Qed.

Lemma forallb_weaken {A} (P Q : A -> bool) (l : list A) :
  (forall x, P x = true -> Q x = true) ->
  forallb P l = true -> forallb Q l = true.
Proof.
  intros HPQ. induction l as [| x l IH]; [reflexivity |].
  cbn [forallb]. intros [Hx Hl]%andb_prop.
  rewrite (HPQ x Hx), (IH Hl). reflexivity.
Qed.

(** X8. No run of the generator ever posts a bundle transaction: whatever the
    storage, the credentials and the files, no promise it yields has made the
    call that bundles the data items and posts them as one transaction. *)
Theorem run_never_posts_bundle
    (storage : StorageType) (dirname : string) (assets : list AssetKey)
    (jwk : option string) (wkp : option Keypair) (fuel : nat) :
  Forall (fun p => forallb (fun ev => negb (isPostBundle ev)) (trace p) = true)
    (fst (run E fuel (makeArweaveBundleUploadGenerator
                        storage dirname assets jwk wkp))).
Proof.
  apply run_Created_Forall; [reflexivity |].
  intros c fps0 Hp fps.
  destruct (prologue_closure _ _ _ _ _ _ _ Hp) as (Hs & _ & _ & Hnb & _).
  rewrite <- Hs in Hnb. rewrite bundleStep_promise.
  assert (forallb (fun ev => negb (isPostBundle ev))
            (trace (getBundleRange E fps)) = true) as Hrange.
  { apply (forallb_weaken (fun ev => negb (isSubmission ev)));
      [intros []; cbn; congruence |].
    apply getBundleRange_loop_no_submission. }
  destruct (outcome (getBundleRange E fps)) as [range | e]; [| exact Hrange].
  cbn [trace fst]. rewrite forallb_app, Hrange, processBundle_promise.
  cbn [andb].
  assert (forallb (fun ev => negb (isPostBundle ev))
            (trace (processBundleFilePairs E c (take (count range) fps))) = true)
    as Hproc.
  { apply (forallb_weaken (fun ev => negb (isSubmission ev)));
      [intros []; cbn; congruence |].
    apply processBundleFilePairs_no_submission. }
  destruct (outcome (processBundleFilePairs E c _)) as [processed | e];
    [| exact Hproc].
  cbn [trace fst]. rewrite forallb_app, Hproc. cbn [andb].
  rewrite (uploadBundle_skipped c _ Hnb), trace_bind.
  destruct (outcome (uploadSol E c _));
    [| apply uploadSol_events; reflexivity].
  rewrite forallb_app, uploadSol_events by reflexivity. reflexivity.
Qed.

(** X9. With a storage that is neither the SOL one nor the AR bundle one, no
    promise the generator yields has handed anything to the network; and yet
    the pairs are measured, read and signed and their links reported: when
    the range of a bundle is computed and its pairs all go through, the
    promise yielded is fulfilled with the keys, links and updated manifests
    of those pairs, its calls being those that measured the files followed by
    those that read and signed the pairs, and nothing else. *)
Theorem run_other_storage_submits_nothing
    (dirname : string) (assets : list AssetKey)
    (jwk : option string) (wkp : option Keypair) (fuel : nat) :
  Forall (fun p => noSubmission (trace p) = true)
    (fst (run E fuel (makeArweaveBundleUploadGenerator
                        OtherStorage dirname assets jwk wkp))) /\
  (forall c fps g p range acc,
     storageType c = OtherStorage ->
     next E (Suspended c fps) = (g, Yield p) ->
     outcome (getBundleRange E fps) = Fulfilled range ->
     outcome (processBundleFilePairs E c (take (count range) fps))
       = Fulfilled acc ->
     trace p = trace (getBundleRange E fps)
               ++ trace (processBundleFilePairs E c (take (count range) fps)) /\
     noSubmission (trace p) = true /\
     outcome p =
       Fulfilled {| cacheKeys := map key (take (count range) fps);
                    arweavePathManifestLinks := acc_arweavePathManifestLinks acc;
                    updatedManifests := acc_updatedManifests acc |} /\
     Processed E c (take (count range) fps) (acc_dataItems acc)
       (acc_arweavePathManifestLinks acc) (acc_updatedManifests acc)).
Proof.
  split.
  - apply run_Created_Forall; [reflexivity |].
    intros c fps0 Hp fps.
    destruct (prologue_closure _ _ _ _ _ _ _ Hp) as (Hs & _).
    rewrite bundleStep_promise.
    pose proof (getBundleRange_loop_no_submission E fps 0 0%nat) as Hrange.
    fold (getBundleRange E fps) in Hrange.
    destruct (outcome (getBundleRange E fps)) as [range | e]; [| exact Hrange].
    cbn [trace fst]. unfold noSubmission in *.
    rewrite forallb_app, Hrange, processBundle_promise. cbn [andb].
    pose proof (processBundleFilePairs_no_submission E c (take (count range) fps))
      as Hproc. unfold noSubmission in Hproc.
    destruct (outcome (processBundleFilePairs E c _)) as [processed | e];
      [| exact Hproc].
    cbn [trace fst].
    rewrite uploadSol_skipped, uploadBundle_skipped by (rewrite Hs; discriminate).
    rewrite !bind_ret_l, app_nil_r. exact Hproc.
  - intros c fps g p range acc Hs Hn Hrange Hacc.
    apply next_Suspended_yield in Hn as (_ & _ & ->).
    rewrite bundleStep_promise, Hrange, processBundle_promise, Hacc.
    rewrite uploadSol_skipped, uploadBundle_skipped by (rewrite Hs; discriminate).
    rewrite !bind_ret_l. cbn [trace outcome ret fst snd]. rewrite app_nil_r.
    destruct (reducePairs_keys E c _ (ret emptyAcc) acc Hacc)
      as (acc0 & [= <-] & Hk). cbn [emptyAcc acc_cacheKeys app] in Hk.
    rewrite Hk. split; [reflexivity |]. split; [| split; [reflexivity |]].
    + unfold noSubmission. rewrite forallb_app. apply andb_true_intro. split.
      * apply getBundleRange_loop_no_submission.
      * apply processBundleFilePairs_no_submission.
    + pose proof (processBundleFilePairs_contents_aux E c _ acc Hacc) as HP.
      exact HP.
Qed.

End Runs.

(** ** The errors of a run *)

Section Errors.

Variable E : Env.
Variable P : Error -> bool.

Lemma errs_ret {A} (a : A) : errs P (ret a).
Proof. intros e H. discriminate H. Qed.

Lemma errs_call {A} (ev : Event) (answer : option A) (e0 : Error) :
  P e0 = true -> errs P (call ev answer e0).
Proof.
  intros H e. rewrite outcome_call. destruct answer; [discriminate |].
  intros [= <-]. exact H.
Qed.

Lemma errs_throw {A} (e0 : Error) : P e0 = true -> errs P (@throw A e0).
Proof. intros H e [= <-]. exact H. Qed.

Lemma errs_bind {A B} (m : M A) (f : A -> M B) :
  errs P m -> (forall a, errs P (f a)) -> errs P (bind m f).
Proof.
  intros Hm Hf e. rewrite outcome_bind.
  destruct (outcome m) as [a | e'] eqn:Ho; [apply Hf |].
  intros [= <-]. exact (Hm _ Ho).
Qed.

Lemma errs_getBundleRange (fps : list FilePair) :
  (forall f, P (ErrStat f) = true) ->
  (forall k s, P (ErrTooBig k s) = true) ->
  errs P (getBundleRange E fps).
Proof.
  intros Hstat Hbig. unfold getBundleRange. generalize 0 0%nat.
  induction fps as [| fp rest IH]; intros total n; [apply errs_ret |].
  cbn [getBundleRange_loop]. apply errs_bind.
  - unfold filePairSize, sumFileSizes. cbn [fold_left].
    repeat (apply errs_bind; [| intros ?]);
      solve [apply errs_ret | apply errs_call, Hstat].
  - intros s. destruct (_ >=? _); [| apply IH].
    destruct (n =? 0)%nat; [apply errs_throw, Hbig | apply errs_ret].
Qed.

Lemma errs_processBundleFilePairs (c : Closure) (l : list FilePair) :
  (forall f, P (ErrReadFile f) = true) ->
  (forall d, P (ErrSign d) = true) ->
  (forall f, P (ErrInvalidManifest f) = true) ->
  errs P (processBundleFilePairs E c l).
Proof.
  intros Hread Hsign Hbad.
  change (errs P (reducePairs E c (ret emptyAcc) l)).
  assert (errs P (ret emptyAcc)) as H0 by apply errs_ret.
  revert H0. generalize (ret emptyAcc).
  induction l as [| fp l IH]; intros accP HaccP; [exact HaccP |].
  rewrite reducePairs_cons. apply IH, errs_bind; [exact HaccP |].
  intros acc.
  unfold processBundleFilePair, getImageDataItem, signItem, getUpdatedManifest,
    getManifestDataItem, getArweavePathManifestDataItem, createData.
  repeat (apply errs_bind; [| intros ?]);
    try solve [ apply errs_ret
              | apply errs_call; auto
              | intros e H; discriminate H ].
  destruct (JSON_parse E _); [apply errs_ret | apply errs_throw, Hbad].
Qed.

Lemma errs_uploadEach (ds : list DataItem) :
  (forall d, P (ErrUpload d) = true) -> errs P (uploadEach E ds).
Proof.
  intros Hu. induction ds as [| d ds IH]; [apply errs_ret |].
  cbn [uploadEach]. apply errs_bind; [apply errs_call, Hu | intros _; exact IH].
Qed.

End Errors.

Section RunErrors.

Variable E : Env.

(** X10. The two reads of [walletKeyPair.secretKey], for the signer in the
    prologue and for Bundlr in [processBundle], never fail on an undefined
    keypair: both are made only with the SOL storage, and with that storage
    the first check of the prologue has thrown when no keypair was passed.
    So no resumption throws that error and no promise the generator yields
    is rejected with it. *)
Theorem run_keypair_reads_never_fail
    (storage : StorageType) (dirname : string) (assets : list AssetKey)
    (jwk : option string) (wkp : option Keypair) (fuel : nat) :
  snd (run E fuel (makeArweaveBundleUploadGenerator
                     storage dirname assets jwk wkp)) <> RunThrew ErrTypeError /\
  Forall (fun p => outcome p <> Rejected ErrTypeError)
    (fst (run E fuel (makeArweaveBundleUploadGenerator
                        storage dirname assets jwk wkp))).
Proof.
  split.
  - destruct fuel as [| fuel]; [discriminate |].
    cbn [run next makeArweaveBundleUploadGenerator].
    destruct (prologue E storage dirname assets jwk wkp) as [e0 | [c fps0]] eqn:Hp.
    + cbn [snd]. intros [= ->]. revert Hp. unfold prologue.
      destruct storage, wkp as [kp |]; cbn; try discriminate;
        match goal with |- context [newSigner E ?sg] => destruct (newSigner E sg) end;
        discriminate.
    + assert (forall fps,
                snd (run E fuel (Suspended c fps)) <> RunThrew ErrTypeError) as H.
      { clear. induction fuel as [| fuel IH]; intros fps; [discriminate |].
        destruct fps as [| fp rest]; [discriminate |].
        cbn [run]. rewrite next_Suspended_cons.
        specialize (IH (fst (bundleStep E c (fp :: rest)))).
        destruct (run E fuel _). exact IH. }
      specialize (H fps0). destruct (run E fuel (Suspended c fps0)).
      exact H.
  - apply (Forall_impl (errs notKeypairRead));
      [| intros p Hp Hrej; specialize (Hp _ Hrej); discriminate Hp].
    apply run_Created_Forall; [apply errs_ret |].
    intros c fps0 Hp fps.
    destruct (prologue_closure E _ _ _ _ _ _ _ Hp)
      as (Hs & Hw & _ & Hnb & Hkp & _).
    intros e. rewrite bundleStep_promise.
    pose proof (errs_getBundleRange E notKeypairRead fps
                  ltac:(reflexivity) ltac:(reflexivity)) as Hrange.
    destruct (outcome (getBundleRange E fps)) as [range | e0] eqn:Ho;
      [| intros [= <-]; exact (Hrange _ Ho)].
    cbn [outcome snd]. rewrite processBundle_promise.
    pose proof (errs_processBundleFilePairs E notKeypairRead c
                  (take (count range) fps)
                  ltac:(reflexivity) ltac:(reflexivity) ltac:(reflexivity))
      as Hproc.
    destruct (outcome (processBundleFilePairs E c _)) as [processed | e1]
      eqn:Ho1; [| intros [= <-]; exact (Hproc _ Ho1)].
    cbn [outcome snd].
    rewrite (uploadBundle_skipped E c _ ltac:(rewrite Hs; exact Hnb)).
    revert e. apply errs_bind; [| intros _; apply errs_bind; intros; apply errs_ret].
    unfold uploadSol. destruct (StorageType_eqb _ _) eqn:Hsol; [| apply errs_ret].
    assert (storage = ArweaveSol) as ->
      by (rewrite Hs in Hsol; destruct storage; [discriminate | reflexivity
                                                 | discriminate]).
    rewrite Hw. destruct (Hkp eq_refl) as [kp ->]. rewrite bind_ret_l.
    apply errs_bind; [apply errs_call; reflexivity | intros cost].
    apply errs_bind; [apply errs_call; reflexivity | intros _].
    apply errs_uploadEach. reflexivity.
Qed.

End RunErrors.

(** ** The size of a path manifest *)

Lemma length_append (s t : string) :
  String.length (s +:+ t) = (String.length s + String.length t)%nat.
Proof.
  induction s as [| ch s IH]; [reflexivity |].
  change (String ch s +:+ t) with (String ch (s +:+ t)).
  cbn [String.length]. rewrite IH. reflexivity.
Qed.

Lemma escapeChar_safe (ch : ascii) :
  safeChar ch = true -> escapeChar ch = String ch EmptyString.
Proof.
  unfold safeChar, escapeChar. cbv zeta.
  intros [[H32 H34]%andb_prop H92]%andb_prop.
  apply Nat.leb_le in H32.
  apply negb_true_iff in H34. apply negb_true_iff in H92. rewrite H34, H92.
  repeat match goal with
         | |- context [(?a =? ?b)%nat] =>
             destruct (Nat.eqb_spec a b); [lia |]
         end.
  destruct (Nat.ltb_spec (nat_of_ascii ch) 32); [lia | reflexivity].
Qed.

Lemma escape_safe (s : string) : safeString s = true -> escape s = s.
Proof.
  induction s as [| ch s IH]; [reflexivity |].
  cbn [safeString escape]. intros [Hc Hs]%andb_prop.
  rewrite (escapeChar_safe ch Hc), (IH Hs). reflexivity.
Qed.

Lemma length_escape_safe (s : string) :
  safeString s = true -> String.length (escape s) = String.length s.
Proof. intros H. rewrite (escape_safe s H). reflexivity. Qed.

Lemma escape_append (s t : string) : escape (s +:+ t) = escape s +:+ escape t.
Proof.
  induction s as [| ch s IH]; [reflexivity |].
  change (String ch s +:+ t) with (String ch (s +:+ t)).
  cbn [escape]. rewrite IH.
  generalize (escapeChar ch) as u. intros u.
  induction u as [| ch' u IHu]; [reflexivity |].
  change (String ch' u +:+ escape s +:+ escape t)
    with (String ch' (u +:+ escape s +:+ escape t)).
  change ((String ch' u +:+ escape s) +:+ escape t)
    with (String ch' ((u +:+ escape s) +:+ escape t)).
  rewrite IHu. reflexivity.
Qed.

(** X11. The path manifest of a pair whose two transaction ids and media
    extension hold no character that JSON escapes is 133 bytes longer than
    the ids and the extension together; so the fixed overhead that
    [getBundleRange] adds per pair is the exact size of the pair's path
    manifest when the ids have 43 characters and the extension, with its
    dot, has 4. *)
Theorem pathManifest_byteLength (imageTxId manifestTxId mediaType : string) :
  safeString imageTxId = true ->
  safeString manifestTxId = true ->
  safeString mediaType = true ->
  byteLength (stringifyPathManifest
                (createArweavePathManifest imageTxId manifestTxId mediaType)) =
    133 + byteLength imageTxId + byteLength manifestTxId + byteLength mediaType
  /\ (byteLength imageTxId = 43 -> byteLength manifestTxId = 43 ->
      byteLength mediaType = 4 ->
      byteLength (stringifyPathManifest
                    (createArweavePathManifest imageTxId manifestTxId mediaType))
      = dummyAreaveManifestByteSize).
Proof.
  intros Hi Hm He.
  assert (byteLength (stringifyPathManifest
                        (createArweavePathManifest imageTxId manifestTxId
                           mediaType)) =
          133 + byteLength imageTxId + byteLength manifestTxId
          + byteLength mediaType) as H.
  { unfold byteLength, stringifyPathManifest, createArweavePathManifest, quote.
    cbn [paths pm_manifest pm_version index_path stringifyPaths]. unfold quote.
    rewrite escape_append, !length_append.
    rewrite !length_escape_safe by (assumption || reflexivity).
    cbn [String.length dquote]. lia. }
  split; [exact H |].
  intros H1 H2 H3. rewrite H, H1, H2, H3.
  rewrite dummyAreaveManifestByteSize_value. reflexivity.
Qed.

(** ** What a fulfilled bundle reports, and the files a run touches *)

Section Reports.

Variable E : Env.

(** X12. When the promise yielded for a bundle is fulfilled, its three arrays
    have one entry per pair of the bundle, in the order of the pairs: the
    i-th link and the i-th updated manifest belong to the pair of the i-th
    key, the link being made from the id of that pair's signed manifest data
    item and the manifest pointing at the id of its signed image data
    item. *)
Theorem next_fulfilled_contents
    (c : Closure) (fps : list FilePair) (g : Generator)
    (p : M UploadGeneratorResult) (r : UploadGeneratorResult) :
  next E (Suspended c fps) = (g, Yield p) ->
  outcome p = Fulfilled r ->
  exists range ds,
    outcome (getBundleRange E fps) = Fulfilled range /\
    cacheKeys r = map key (take (count range) fps) /\
    Processed E c (take (count range) fps) ds
      (arweavePathManifestLinks r) (updatedManifests r) /\
    length (cacheKeys r) = count range /\
    length (arweavePathManifestLinks r) = count range /\
    length (updatedManifests r) = count range.
Proof.
  intros Hn Hr. apply next_Suspended_yield in Hn as (Hne & -> & ->).
  rewrite bundleStep_promise in Hr.
  destruct (outcome (getBundleRange E fps)) as [range | e] eqn:Hrange;
    [| discriminate].
  cbn [outcome snd] in Hr. rewrite processBundle_promise in Hr.
  destruct (outcome (processBundleFilePairs E c (take (count range) fps)))
    as [processed | e] eqn:Hp; [| discriminate].
  cbn [outcome snd] in Hr. rewrite outcome_bind in Hr.
  destruct (outcome (uploadSol E c _)); [| discriminate].
  rewrite outcome_bind in Hr.
  destruct (outcome (uploadBundle E c _)); [| discriminate].
  injection Hr as <-.
  cbn [cacheKeys arweavePathManifestLinks updatedManifests].
  pose proof (processBundleFilePairs_contents_aux E c _ _ Hp) as HP.
  destruct (Processed_lengths E c _ _ _ _ HP) as (_ & Hl & Hm).
  destruct (reducePairs_keys E c _ (ret emptyAcc) processed Hp)
    as (acc0 & [= <-] & Hk). cbn [emptyAcc acc_cacheKeys app] in Hk.
  destruct (getBundleRange_loop_fulfilled E fps 0 0%nat range)
    as ((_ & Hle) & _); [reflexivity | exact Hrange |].
  assert (length (take (count range) fps) = count range) as Hlen
    by (apply length_take_le; lia).
  exists range, (acc_dataItems processed).
  rewrite Hl, Hm, Hk, length_map, Hlen. repeat split. exact HP.
Qed.

Lemma confined_app (fs : list string) (t1 t2 : list Event) :
  confined fs t1 -> confined fs t2 -> confined fs (t1 ++ t2).
Proof.
  intros H1 H2 ev f [Hin | Hin]%elem_of_app; [apply (H1 ev f Hin)
                                             | apply (H2 ev f Hin)].
Qed.

Lemma confined_mono (fs fs' : list string) (t : list Event) :
  fs ⊆ fs' -> confined fs t -> confined fs' t.
Proof. intros Hsub H ev f Hin Hf. apply Hsub, (H ev f Hin Hf). Qed.

Lemma confined_submissions (fs : list string) (t : list Event) :
  forallb isSubmission t = true -> confined fs t.
Proof.
  intros H ev f Hin Hf. rewrite forallb_forall in H.
  apply list_elem_of_In in Hin. specialize (H ev Hin).
  destruct ev; discriminate.
Qed.

Lemma pairFiles_subseteq (l l' : list FilePair) :
  l ⊆ l' -> pairFiles l ⊆ pairFiles l'.
Proof.
  intros Hsub f (fp & Hf & Hfp)%list_elem_of_bind.
  apply list_elem_of_bind. exists fp. split; [exact Hf | apply Hsub, Hfp].
Qed.

Ltac confined_list :=
  let ev := fresh "ev" in let f := fresh "f" in
  let Hin := fresh "Hin" in let Hf := fresh "Hf" in
  intros ev f Hin Hf;
  repeat (apply elem_of_cons in Hin as [-> | Hin]);
  try (inversion Hin; fail);
  try discriminate Hf;
  injection Hf as <-;
  repeat constructor.

Lemma confined_getBundleRange_loop (fps : list FilePair) :
  forall total n,
    confined (pairFiles fps) (trace (getBundleRange_loop E fps total n)).
Proof.
  induction fps as [| fp rest IH]; intros total n.
  - intros ev f Hin. inversion Hin.
  - cbn [getBundleRange_loop]. rewrite trace_bind, filePairSize_unfold.
    assert (pairFiles rest ⊆ pairFiles (fp :: rest)) as Hsub.
    { apply pairFiles_subseteq. intros x Hx. right. exact Hx. }
    destruct (stat E (image fp)) as [a |]; [| cbn; confined_list].
    destruct (stat E (manifest fp)) as [b |]; cbn [outcome trace fst snd];
      [| confined_list].
    apply confined_app; [confined_list |].
    destruct (_ >=? _).
    + destruct (n =? 0)%nat; intros ev f Hin; inversion Hin.
    + apply (confined_mono _ _ _ Hsub), IH.
Qed.

Lemma confined_processBundleFilePair (c : Closure)
    (acc : ProcessedBundleFilePairs) (fp : FilePair) :
  confined [image fp; manifest fp] (trace (processBundleFilePair E c acc fp)).
Proof.
  unfold processBundleFilePair, getImageDataItem, signItem, getUpdatedManifest,
    getManifestDataItem, getArweavePathManifestDataItem, createData, call,
    bind, ret, throw;
  cbn [data tags id].
  destruct (readFile E (image fp)) as [bytes |]; [| cbn; confined_list].
  destruct (sign E (signer c) _) as [i1 |]; [| cbn; confined_list].
  cbn [data tags id].
  destruct (readFile E (manifest fp)) as [text |]; [| cbn; confined_list].
  destruct (JSON_parse E text) as [m |]; [| cbn; confined_list].
  cbn [data tags id].
  destruct (sign E (signer c) _) as [i2 |]; [| cbn; confined_list].
  cbn [data tags id].
  destruct (sign E (signer c) _) as [i3 |]; cbn; confined_list.
Qed.

Lemma confined_reducePairs (c : Closure) (fs : list string) (l : list FilePair) :
  pairFiles l ⊆ fs ->
  forall accP, confined fs (trace accP) ->
               confined fs (trace (reducePairs E c accP l)).
Proof.
  induction l as [| fp l IH]; intros Hsub accP H; [exact H |].
  rewrite reducePairs_cons. apply IH.
  - intros f Hf. apply Hsub. unfold pairFiles in *. cbn [mbind list_bind].
    apply elem_of_app. right. exact Hf.
  - rewrite trace_bind. destruct (outcome accP); [| exact H].
    apply confined_app; [exact H |].
    apply (confined_mono [image fp; manifest fp]);
      [| apply confined_processBundleFilePair].
    intros f Hf. apply Hsub. unfold pairFiles. cbn [mbind list_bind].
    apply elem_of_app. left. exact Hf.
Qed.

Lemma confined_bundleStep (c : Closure) (fps : list FilePair) :
  confined (pairFiles fps) (trace (snd (bundleStep E c fps))).
Proof.
  rewrite bundleStep_promise.
  pose proof (confined_getBundleRange_loop fps 0 0%nat) as Hrange.
  fold (getBundleRange E fps) in Hrange.
  destruct (outcome (getBundleRange E fps)) as [range | e]; [| exact Hrange].
  cbn [trace fst]. apply confined_app; [exact Hrange |].
  destruct (processing_before_submission_aux E c fps range)
    as (submitted & -> & Hsub).
  apply confined_app; [| apply confined_submissions, Hsub].
  apply (confined_reducePairs c _ _
           (pairFiles_subseteq _ _ (subseteq_take (count range) fps))
           (ret emptyAcc)).
  intros ev f Hin. inversion Hin.
Qed.

Lemma run_Suspended_confined (c : Closure) (fuel : nat) (fps : list FilePair) :
  Forall (fun p => confined (pairFiles fps) (trace p))
    (fst (run E fuel (Suspended c fps))).
Proof.
  revert fps. induction fuel as [| fuel IH]; intros fps; [constructor |].
  destruct fps as [| fp rest]; [constructor |].
  cbn [run]. rewrite next_Suspended_cons.
  specialize (IH (fst (bundleStep E c (fp :: rest)))).
  destruct (bundleStep_pending E c (fp :: rest)) as [k Hk].
  rewrite Hk in *. destruct (run E fuel _) as [ps e]. cbn [fst] in *.
  constructor; [apply confined_bundleStep |].
  eapply Forall_impl; [exact IH |]. intros p Hp. cbn beta in Hp.
  apply (confined_mono _ _ _ (pairFiles_subseteq _ _ (subseteq_drop k _)) Hp).
Qed.

(** X13. A run asks the file system about no file but the images and the
    manifests of the assets it was given: every [stat] and every [readFile]
    of every promise it yields is on [dirname/<index><mediaExt>] or on
    [dirname/<index>.json] for one of the assets. *)
Theorem run_touches_asset_files
    (storage : StorageType) (dirname : string) (assets : list AssetKey)
    (jwk : option string) (wkp : option Keypair) (fuel : nat) :
  Forall
    (fun p =>
       forall ev f, ev ∈ trace p -> fileOf ev = Some f ->
         exists asset, asset ∈ assets /\
           (f = path_join E dirname (index asset +:+ mediaExt asset) \/
            f = path_join E dirname (index asset +:+ ".json")))
    (fst (run E fuel (makeArweaveBundleUploadGenerator
                        storage dirname assets jwk wkp))).
Proof.
  destruct fuel as [| fuel]; [constructor |].
  cbn [run next makeArweaveBundleUploadGenerator].
  destruct (prologue E storage dirname assets jwk wkp) as [e | [c fps]] eqn:Hp;
    [constructor |].
  destruct (prologue_closure E _ _ _ _ _ _ _ Hp) as (_ & _ & _ & _ & _ & ->).
  pose proof (run_Suspended_confined c fuel
                (map (fun asset : AssetKey =>
                        {| key := index asset;
                           image := path_join E dirname
                                      (index asset +:+ mediaExt asset);
                           manifest := path_join E dirname
                                         (index asset +:+ ".json") |}) assets))
    as H.
  destruct (run E fuel _) as [ps e]. cbn [fst] in *.
  constructor; [intros ev f Hin; inversion Hin |].
  eapply Forall_impl; [exact H |]. intros p Hc ev f Hin Hf. cbn beta in Hc.
  specialize (Hc ev f Hin Hf).
  apply list_elem_of_bind in Hc as (fp & Hfp & Hmem).
  apply list_elem_of_fmap in Hmem as (asset & -> & Hasset).
  exists asset. split; [exact Hasset |]. cbn [image manifest] in Hfp.
  apply elem_of_cons in Hfp as [-> | Hfp]; [left; reflexivity |].
  apply elem_of_cons in Hfp as [-> | Hfp]; [right; reflexivity | inversion Hfp].
Qed.

Lemma filter_isUpload_noSubmission (t : list Event) :
  noSubmission t = true -> List.filter isUpload t = [].
Proof.
  induction t as [| ev t IH]; [reflexivity |].
  cbn [noSubmission forallb List.filter]. intros [Hev Ht]%andb_prop.
  rewrite (IH Ht). destruct ev; [reflexivity .. | discriminate | reflexivity];
    discriminate.
Qed.

(** X14. With the SOL storage, when the promise yielded for a bundle is
    fulfilled, the data items uploaded are exactly the three signed data
    items of each pair of the bundle, once each and in the order of the
    pairs; so every link reported is made from the id of a data item that
    was uploaded. *)
Theorem next_fulfilled_uploads
    (c : Closure) (kp : Keypair) (fps : list FilePair) (g : Generator)
    (p : M UploadGeneratorResult) (r : UploadGeneratorResult) :
  storageType c = ArweaveSol -> walletKeyPair c = Some kp ->
  next E (Suspended c fps) = (g, Yield p) ->
  outcome p = Fulfilled r ->
  exists range ds,
    outcome (getBundleRange E fps) = Fulfilled range /\
    Processed E c (take (count range) fps) ds
      (arweavePathManifestLinks r) (updatedManifests r) /\
    List.filter isUpload (trace p) = EvUpload <$> ds /\
    length ds = (3 * count range)%nat.
Proof.
  intros Hs Hk Hn Hr. apply next_Suspended_yield in Hn as (Hne & -> & ->).
  rewrite bundleStep_promise in *.
  pose proof (getBundleRange_loop_no_submission E fps 0 0%nat) as Hnr.
  fold (getBundleRange E fps) in Hnr.
  destruct (outcome (getBundleRange E fps)) as [range | e] eqn:Hrange;
    [| discriminate].
  cbn [outcome trace fst snd] in *. rewrite processBundle_promise in *.
  pose proof (processBundleFilePairs_no_submission E c (take (count range) fps))
    as Hnp.
  destruct (outcome (processBundleFilePairs E c (take (count range) fps)))
    as [processed | e] eqn:Hp; [| discriminate].
  cbn [outcome trace fst snd] in *.
  rewrite (uploadBundle_skipped E c _ ltac:(rewrite Hs; discriminate)) in *.
  rewrite outcome_bind in Hr.
  destruct (outcome (uploadSol E c (acc_dataItems processed))) as [[] |] eqn:Hu;
    [| discriminate].
  rewrite bind_ret_l in Hr. injection Hr as <-.
  cbn [arweavePathManifestLinks updatedManifests].
  pose proof (processBundleFilePairs_contents_aux E c _ _ Hp) as HP.
  destruct (Processed_lengths E c _ _ _ _ HP) as (Hd & _ & _).
  destruct (getBundleRange_loop_fulfilled E fps 0 0%nat range)
    as ((_ & Hle) & _); [reflexivity | exact Hrange |].
  rewrite length_take_le in Hd by lia.
  exists range, (acc_dataItems processed).
  split; [reflexivity |]. split; [exact HP |]. split; [| exact Hd].
  rewrite !List.filter_app, (filter_isUpload_noSubmission _ Hnr),
    (filter_isUpload_noSubmission _ Hnp).
  cbn [app]. rewrite trace_bind, Hu, bind_ret_l. cbn [trace ret fst].
  rewrite app_nil_r.
  apply (uploadSol_fulfilled_uploads E c kp _ Hs Hk Hu).
Qed.

End Reports.

(** ** The further properties in the small world *)

Lemma processBundleFilePairs_contents_witness :
  exists acc,
    outcome (processBundleFilePairs (World.env World.files) World.closureSol
               [World.pair "0"; World.pair "1"]) = Fulfilled acc /\
    acc_cacheKeys acc = ["0"; "1"] /\
    length (acc_dataItems acc) = 6%nat.
Proof.
  eexists. split; [vm_compute; reflexivity |].
  refine (let H := processBundleFilePairs_contents (World.env World.files)
                     World.closureSol [World.pair "0"; World.pair "1"] _ _ in
          conj (proj1 H) (proj2 (proj2 H))).
  vm_compute. reflexivity.
Defined.

Lemma processBundleFilePairs_tags_witness :
  exists acc,
    outcome (processBundleFilePairs (World.env World.files) World.closureSol
               [World.pair "0"]) = Fulfilled acc /\
    Forall (fun d => exists v,
              tags d = [ {| tag_name := "App-Name";
                            tag_value := "Metaplex Candy Machine" |};
                         {| tag_name := "Content-Type"; tag_value := v |} ])
      (acc_dataItems acc).
Proof.
  eexists. split; [vm_compute; reflexivity |].
  apply (processBundleFilePairs_tags (World.env World.files) World.closureSol
           [World.pair "0"]).
  vm_compute. reflexivity.
Defined.

Lemma uploadSol_fulfilled_witness :
  let d1 := {| data := "P0"; tags := imageTags; id := "tx-P0" |} in
  let d2 := {| data := "{}"; tags := manifestTags; id := "tx-{}" |} in
  trace (uploadSol (World.env World.files) World.closureSol [d1; d2]) =
    [EvStorageCost 4; EvFund 4; EvUpload d1; EvUpload d2].
Proof.
  intros d1 d2.
  exact (proj2 (uploadSol_fulfilled (World.env World.files) World.closureSol
                  World.kp [d1; d2] eq_refl eq_refl)
           4 ltac:(vm_compute; reflexivity) ltac:(vm_compute; reflexivity)).
Defined.

Lemma upload_refused_partway_witness :
  exists t d,
    processBundle (World.envRefusing World.files "P1") World.closureSol
      [World.pair "0"; World.pair "1"] {| count := 2; size := 20972166 |}
    = ([], (t, Rejected (ErrUpload d))) /\
    data d = "P1" /\
    length (List.filter isUpload t) = 4%nat.
Proof.
  pose (E1 := World.envRefusing World.files "P1").
  pose (acc := match outcome (processBundleFilePairs E1 World.closureSol
                                [World.pair "0"; World.pair "1"]) with
               | Fulfilled a => a
               | Rejected _ => emptyAcc
               end).
  pose (d := {| data := "P1";
                tags := imageTags ++ [ {| tag_name := "Content-Type";
                                          tag_value := "image/png" |} ];
                id := "tx-P1" |}).
  pose proof (upload_refused_partway E1 World.closureSol
                [World.pair "0"; World.pair "1"]
                {| count := 2; size := 20972166 |} World.kp acc
                (take 3 (acc_dataItems acc)) (drop 4 (acc_dataItems acc)) d
                (totalBytes E1 (acc_dataItems acc))
                eq_refl eq_refl) as H.
  specialize (H ltac:(vm_compute; reflexivity) ltac:(vm_compute; reflexivity)
                ltac:(vm_compute; reflexivity) ltac:(vm_compute; reflexivity)).
  specialize (H ltac:(repeat constructor; eexists; vm_compute; reflexivity)
                ltac:(vm_compute; reflexivity)).
  eexists _, d. split; [exact H |]. split; [reflexivity |].
  vm_compute. reflexivity.
Defined.

Lemma pathManifest_byteLength_witness :
  byteLength (stringifyPathManifest
                (createArweavePathManifest
                   "akBSbAEWTf6xDDnrG_BHKaxXjxoGuBnuhMnoYKUCDZo"
                   "akBSbAEWTf6xDDnrG_BHKaxXjxoGuBnuhMnoYKUCDZo" ".jpeg")) = 224.
Proof.
  exact (proj1 (pathManifest_byteLength
                  "akBSbAEWTf6xDDnrG_BHKaxXjxoGuBnuhMnoYKUCDZo"
                  "akBSbAEWTf6xDDnrG_BHKaxXjxoGuBnuhMnoYKUCDZo" ".jpeg"
                  eq_refl eq_refl eq_refl)).
Defined.

Lemma next_fulfilled_contents_witness :
  exists g p r,
    next (World.env World.files)
      (Suspended World.closureSol
         [World.pair "0"; World.pair "1"; World.pair "2"]) = (g, Yield p) /\
    outcome p = Fulfilled r /\
    cacheKeys r = ["0"; "1"] /\
    length (arweavePathManifestLinks r) = 2%nat /\
    length (updatedManifests r) = 2%nat.
Proof.
  eexists _, _, _. split; [vm_compute; reflexivity |].
  split; [reflexivity |].
  edestruct (next_fulfilled_contents (World.env World.files) World.closureSol
               [World.pair "0"; World.pair "1"; World.pair "2"])
    as (range & ds & Hrange & Hk & _ & _ & Hl & Hm);
    [vm_compute; reflexivity | reflexivity |].
  vm_compute in Hrange. injection Hrange as <-.
  split; [exact Hk | split; [exact Hl | exact Hm]].
Defined.

Lemma next_fulfilled_uploads_witness :
  exists g p,
    next (World.env World.files)
      (Suspended World.closureSol [World.pair "0"]) = (g, Yield p) /\
    length (List.filter isUpload (trace p)) = 3%nat.
Proof.
  eexists _, _. split; [vm_compute; reflexivity |].
  edestruct (next_fulfilled_uploads (World.env World.files) World.closureSol
               World.kp [World.pair "0"])
    as (range & ds & Hrange & _ & Hup & Hlen);
    [reflexivity | reflexivity | vm_compute; reflexivity | reflexivity |].
  vm_compute in Hrange. injection Hrange as <-.
  rewrite Hup, length_fmap, Hlen. reflexivity.
Defined.

Lemma run_other_storage_submits_nothing_witness :
  exists g p,
    next (World.env World.files)
      (Suspended World.closureOther
         [World.pair "0"; World.pair "1"; World.pair "2"]) = (g, Yield p) /\
    (exists r, outcome p = Fulfilled r /\ cacheKeys r = ["0"; "1"] /\
               length (arweavePathManifestLinks r) = 2%nat) /\
    noSubmission (trace p) = true /\
    length (List.filter isBuild (trace p)) = 12%nat.
Proof.
  pose (E0 := World.env World.files).
  pose (fps := [World.pair "0"; World.pair "1"; World.pair "2"]).
  pose (acc := match outcome (processBundleFilePairs E0 World.closureOther
                                (take 2 fps)) with
               | Fulfilled a => a
               | Rejected _ => emptyAcc
               end).
  pose (g := fst (next E0 (Suspended World.closureOther fps))).
  pose (p := match snd (next E0 (Suspended World.closureOther fps)) with
             | Yield p => p
             | _ => ret emptyResult
             end).
  assert (next E0 (Suspended World.closureOther fps) = (g, Yield p)) as Hn
    by (vm_compute; reflexivity).
  exists g, p. split; [exact Hn |].
  destruct (proj2 (run_other_storage_submits_nothing E0 "a" [] None None 0)
              World.closureOther fps g p
              {| count := 2; size := 20972166 |} acc eq_refl Hn)
    as (Ht & Hns & Ho & HP);
    [vm_compute; reflexivity | vm_compute; reflexivity |].
  split; [| split; [exact Hns |]].
  - eexists. split; [exact Ho |]. split; [reflexivity |].
    cbn [arweavePathManifestLinks].
    destruct (Processed_lengths _ _ _ _ _ _ HP) as (_ & Hl & _). exact Hl.
  - rewrite Ht. vm_compute. reflexivity.
Defined.
